(** * Cloud activity standardization: a shallow embedding of
      [scripts/normalize_cloud_activity.py] and the properties of its
      classification engine.

    Text is modelled as [string] over 8-bit characters read as ASCII: on
    ASCII text Python's [str.lower], [str.upper], [str.strip] and the
    regular-expression class [\s] behave exactly as the functions below.
    Python exceptions are values of [result]. *)

From Stdlib Require Import Strings.String Strings.Ascii List Bool Arith Lia.
From Stdlib Require Import Sorting.Permutation.
Import ListNotations.
Open Scope string_scope.

(** ** Exceptions *)

Inductive exn : Type :=
| ValueError (msg : string)
| IndexError
| KeyError (key : string).

Inductive result (A : Type) : Type :=
| Ok (a : A)
| Raise (e : exn).
Arguments Ok {A} a.
Arguments Raise {A} e.

Definition bind {A B : Type} (m : result A) (f : A -> result B) : result B :=
  match m with
  | Ok a => f a
  | Raise e => Raise e
  end.

Notation "x <- m ;; k" := (bind m (fun x => k))
  (at level 61, m at next level, right associativity).

(** ** Characters and the [str] methods the program calls *)

Module Py.

(** [str.isspace] on one ASCII character; also the class [\s] of [re] on
    [str] patterns: TAB, LF, VT, FF, CR, FS, GS, RS, US and the space. *)
Definition is_space (c : ascii) : bool :=
  let n := nat_of_ascii c in
  (((9 <=? n) && (n <=? 13)) || ((28 <=? n) && (n <=? 32)))%nat.

Definition is_upper (c : ascii) : bool :=
  let n := nat_of_ascii c in ((65 <=? n) && (n <=? 90))%nat.

Definition is_lower (c : ascii) : bool :=
  let n := nat_of_ascii c in ((97 <=? n) && (n <=? 122))%nat.

Definition is_digit (c : ascii) : bool :=
  let n := nat_of_ascii c in ((48 <=? n) && (n <=? 57))%nat.

Definition lower_char (c : ascii) : ascii :=
  if is_upper c then ascii_of_nat (nat_of_ascii c + 32) else c.

Definition upper_char (c : ascii) : ascii :=
  if is_lower c then ascii_of_nat (nat_of_ascii c - 32) else c.

Fixpoint map_chars (f : ascii -> ascii) (s : string) : string :=
  match s with
  | EmptyString => EmptyString
  | String c s' => String (f c) (map_chars f s')
  end.

(** [s.lower()] and [s.upper()] on ASCII text; what relates the two (the
    letter case not mattering) is stated for texts that satisfy [is_ascii]
    only, since outside ASCII Python's case mappings are not inverse to each
    other. *)
Definition lower : string -> string := map_chars lower_char.
Definition upper : string -> string := map_chars upper_char.

(** [s.capitalize()]: first character upper-cased, the rest lower-cased. *)
Definition capitalize (s : string) : string :=
  match s with
  | EmptyString => EmptyString
  | String c s' => String (upper_char c) (lower s')
  end.

Fixpoint lstrip (s : string) : string :=
  match s with
  | EmptyString => EmptyString
  | String c s' => if is_space c then lstrip s' else s
  end.

Fixpoint rstrip (s : string) : string :=
  match s with
  | EmptyString => EmptyString
  | String c s' =>
      match rstrip s' with
      | EmptyString => if is_space c then EmptyString else String c EmptyString
      | r => String c r
      end
  end.

(** [s.strip()]. *)
Definition strip (s : string) : string := rstrip (lstrip s).

(** [s.startswith(p)]. *)
Definition startswith (s p : string) : bool := prefix p s.

(** [p in s]. *)
Fixpoint contains (p s : string) : bool :=
  prefix p s ||
  match s with
  | EmptyString => false
  | String _ s' => contains p s'
  end.

(** [s.endswith(p)]. *)
Fixpoint endswith (s p : string) : bool :=
  String.eqb s p ||
  match s with
  | EmptyString => false
  | String _ s' => endswith s' p
  end.

(** [s[:-1]]. *)
Fixpoint drop_last (s : string) : string :=
  match s with
  | EmptyString => EmptyString
  | String c EmptyString => EmptyString
  | String c s' => String c (drop_last s')
  end.

(** [s.split(sep)] for a one-character separator. *)
Fixpoint split (sep : ascii) (s : string) : list string :=
  match s with
  | EmptyString => [EmptyString]
  | String c s' =>
      if Ascii.eqb c sep then EmptyString :: split sep s'
      else match split sep s' with
           | [] => [String c EmptyString]
           | t :: ts => String c t :: ts
           end
  end.

(** [l[i]], raising [IndexError] out of range. *)
Definition index {A : Type} (l : list A) (i : nat) : result A :=
  match nth_error l i with
  | Some a => Ok a
  | None => Raise IndexError
  end.

(** [s.replace(old, new)] for a non-empty [old]: occurrences are replaced
    from the left and do not overlap; [skip] counts the characters of the
    occurrence being replaced that are still to be passed. *)
Fixpoint replace_from (old new : string) (skip : nat) (s : string) : string :=
  match s with
  | EmptyString => EmptyString
  | String c s' =>
      match skip with
      | S k => replace_from old new k s'
      | O =>
          if prefix old s
          then new ++ replace_from old new (String.length old - 1) s'
          else String c (replace_from old new 0 s')
      end
  end.

Definition replace (s old new : string) : string := replace_from old new 0 s.

(** [sep.join(l)]. *)
Definition join (sep : string) (l : list string) : string := String.concat sep l.

End Py.

(** ** The fragment of [re] the program uses

    A pattern is a sequence of one-character items, greedy repetitions of a
    character class, and the end anchor; matching backtracks as [re] does. *)

Module Re.

Inductive item : Type :=
| One (cls : ascii -> bool)      (* a class or a literal, once *)
| Star (cls : ascii -> bool)     (* cls*  *)
| Plus (cls : ascii -> bool)     (* cls+  *)
| Eol.                           (* $ *)

Definition regex := list item.

Definition lit (c : ascii) : ascii -> bool := Ascii.eqb c.

(** Greedy repetition: take characters of the class while possible, then
    give them back one at a time until the continuation [k] matches. *)
Fixpoint star (cls : ascii -> bool) (k : string -> option string) (s : string)
  : option string :=
  match s with
  | EmptyString => k s
  | String c s' =>
      if cls c then
        match star cls k s' with
        | Some rest => Some rest
        | None => k s
        end
      else k s
  end.

(** [$] without [re.MULTILINE]: the end of the text, or just before a line
    feed that ends it. *)
Definition at_eol (s : string) : bool :=
  match s with
  | EmptyString => true
  | String c EmptyString => Ascii.eqb c "010"
  | _ => false
  end.

(** [match_at r s]: the pattern matched at the start of [s]; the result is
    what follows the match. *)
Fixpoint match_at (r : regex) : string -> option string :=
  match r with
  | [] => fun s => Some s
  | One cls :: r' => fun s =>
      match s with
      | EmptyString => None
      | String c s' => if cls c then match_at r' s' else None
      end
  | Star cls :: r' => star cls (match_at r')
  | Plus cls :: r' => fun s =>
      match s with
      | EmptyString => None
      | String c s' => if cls c then star cls (match_at r') s' else None
      end
  | Eol :: r' => fun s => if at_eol s then match_at r' s else None
  end.

(** [re.sub(r, repl, s)] for a pattern whose matches are never empty (all
    three patterns of the program start with an item that takes a
    character): the leftmost match at each position is replaced, and the
    scan goes on after it.  [skip] counts the characters of the current match
    still to be passed. *)
Fixpoint sub_from (r : regex) (repl : string) (skip : nat) (s : string) : string :=
  match s with
  | EmptyString => EmptyString
  | String c s' =>
      match skip with
      | S k => sub_from r repl k s'
      | O =>
          match match_at r s with
          | Some rest =>
              repl ++ sub_from r repl (String.length s' - String.length rest) s'
          | None => String c (sub_from r repl 0 s')
          end
      end
  end.

Definition sub (r : regex) (repl : string) (s : string) : string :=
  sub_from r repl 0 s.

End Re.

(** ** Dictionaries in insertion order *)

Definition dict (V : Type) : Type := list (string * V).

Fixpoint dict_get {V : Type} (d : dict V) (k : string) : option V :=
  match d with
  | [] => None
  | (k', v) :: d' => if String.eqb k' k then Some v else dict_get d' k
  end.

(** [d[k] = v]: an existing key keeps its place. *)
Fixpoint dict_set {V : Type} (d : dict V) (k : string) (v : V) : dict V :=
  match d with
  | [] => [(k, v)]
  | (k', v') :: d' =>
      if String.eqb k' k then (k', v) :: d' else (k', v') :: dict_set d' k v
  end.

(** [k in d]. *)
Definition dict_mem {V : Type} (d : dict V) (k : string) : bool :=
  match dict_get d k with Some _ => true | None => false end.

(** ** The program *)

Definition QUAL_DATA := "Data".
Definition QUAL_ADMIN := "Admin".
Definition QUAL_ALL_DISKS := "All Disks".
Definition QUAL_BILLING_FREED := "Billing Freed".
Definition QUAL_BILLING_CONTINUES := "Billing Continues".

(** The two sets are only tested for "some member occurs in the text", so
    the order of the listing does not matter. *)
Definition STOP_FREED_SUBSTRINGS : list string :=
  ["deallocate"; "stop instance"; "stop instances"; "stopped"].
Definition STOP_CONTINUE_SUBSTRINGS : list string := ["power off"; "poweroff"].

Definition COL_HINTS : list (string * list string) :=
  [ ("operation", ["operation name"; "operation"; "action performed"; "event"; "action"]);
    ("resource_type", ["resource type"; "resource"; "resource_name"; "resource category"]);
    ("service", ["service"; "provider"; "namespace"]);
    ("description", ["description"; "details"; "detail"]);
    ("is_data", ["isdataaction"; "is_data_action"; "is_data"; "data action"; "data_action"]);
    ("origin", ["origin"; "source"]) ].

(** [re.sub(r"\s+", " ", str(s).strip().lower())]. *)
Definition norm (s : string) : string :=
  Re.sub [Re.Plus Py.is_space] " " (Py.lower (Py.strip s)).

(** *** Taxonomy *)

(** An entry of [common_objects.yaml]: [provider_aliases] may be absent. *)
Record object_entry : Type := {
  canonical_label : string;
  provider_aliases : option (dict (list string))
}.

(** An entry of [common_actions.yaml]: [provider_variants] may be absent. *)
Record action_entry : Type := {
  label : string;
  provider_variants : option (list string)
}.

Definition object_lookup := dict string.
Definition variant := (string * string * string)%type.
Definition action_variants := list variant.

Definition phrase_of (v : variant) : string := fst (fst v).

Definition get_or {A : Type} (o : option A) (default : A) : A :=
  match o with Some a => a | None => default end.

Definition build_object_lookup (objects_yaml : dict object_entry) : object_lookup :=
  fold_left
    (fun lookup '(_, data) =>
       let label := canonical_label data in
       fold_left
         (fun lookup '(_, aliases) =>
            fold_left (fun lookup alias => dict_set lookup (norm alias) label)
                      aliases lookup)
         (get_or (provider_aliases data) []) lookup)
    objects_yaml [].

(** [variants.sort(key=lambda x: len(x[0]), reverse=True)]: the sort is
    stable, so variants whose phrases have the same length keep their
    order.  [insert_variant v l] puts [v] before the first variant of [l]
    whose phrase is not longer. *)
Fixpoint insert_variant (v : variant) (l : action_variants) : action_variants :=
  match l with
  | [] => [v]
  | w :: l' =>
      if Nat.ltb (String.length (phrase_of v)) (String.length (phrase_of w))
      then w :: insert_variant v l'
      else v :: l
  end.

Definition sort_longest_first (l : action_variants) : action_variants :=
  fold_right insert_variant [] l.

Definition build_action_variants (actions_yaml : dict action_entry) : action_variants :=
  let variants :=
    fold_left
      (fun (variants : action_variants) '(key, data) =>
         let label := label data in
         fold_left
           (fun variants variant => (variants ++ [(norm variant, key, label)])%list)
           (get_or (provider_variants data) []) variants)
      actions_yaml [] in
  sort_longest_first variants.

(** *** Column resolver *)

(** The inner loop of [map_columns]: the column of the first hint that is a
    key of [lower_map]. *)
Fixpoint first_hint (lower_map : dict string) (hints : list string) : option string :=
  match hints with
  | [] => None
  | h :: hints' =>
      match dict_get lower_map h with
      | Some c => Some c
      | None => first_hint lower_map hints'
      end
  end.

(** [d[k]], raising [KeyError]. *)
Definition getitem {V : Type} (d : dict V) (k : string) : result V :=
  match dict_get d k with
  | Some v => Ok v
  | None => Raise (KeyError k)
  end.

(** [{c.lower(): c for c in df.columns}], from the dictionary [acc] on. *)
Definition lower_map_from (acc : dict string) (columns : list string) : dict string :=
  fold_left (fun m c => dict_set m (Py.lower c) c) columns acc.

Definition map_columns (columns : list string) : result (dict string) :=
  let lower_map := lower_map_from [] columns in
  let mapping :=
    fold_left
      (fun mapping '(canonical, hints) =>
         match first_hint lower_map hints with
         | Some c => dict_set mapping canonical c
         | None => mapping
         end)
      COL_HINTS [] in
  if negb (dict_mem mapping "operation")
  then Raise (ValueError "Could not identify operation column.")
  else if negb (dict_mem mapping "resource_type")
  then op <- getitem mapping "operation" ;;
       Ok (dict_set mapping "resource_type" op)
  else Ok mapping.

(** *** Classifiers *)

(** The loop of [classify_object] over [lookup.items()]. *)
Fixpoint first_alias (lookup : object_lookup) (combo : string) : option string :=
  match lookup with
  | [] => None
  | (alias, label) :: lookup' =>
      if Py.contains alias combo then Some label else first_alias lookup' combo
  end.

Definition nonempty (s : string) : bool :=
  match s with EmptyString => false | _ => true end.

Definition classify_object (resource_type op_name : string) (lookup : object_lookup)
  : string :=
  let combo := Py.lower (resource_type ++ " " ++ op_name) in
  match first_alias lookup combo with
  | Some label => label
  | None =>
      let rt := Py.strip resource_type in
      let rt := if Py.endswith rt "s" && Nat.ltb 3 (String.length rt)
                then Py.drop_last rt else rt in
      if nonempty rt then rt else "Resource"
  end.

(** The loop of [classify_action] over the action index. *)
Fixpoint first_variant (variants : action_variants) (low : string)
  : option (string * string) :=
  match variants with
  | [] => None
  | (phrase, key, label) :: variants' =>
      if nonempty phrase && Py.contains phrase low
      then Some (key, label)
      else first_variant variants' low
  end.

Definition classify_action (op_name : string) (variants : action_variants)
  : result (string * string) :=
  let low := norm op_name in
  match first_variant variants low with
  | Some kl => Ok kl
  | None =>
      if Py.startswith low "get" || Py.startswith low "read"
         || Py.startswith low "list" || Py.contains " list" low
      then Ok ("retrieved", "Retrieved")
      else if Py.startswith low "create" then Ok ("created", "Created")
      else if Py.startswith low "update" then Ok ("updated", "Updated")
      else if Py.startswith low "delete" then Ok ("deleted", "Deleted")
      else tok <- Py.index (Py.split " " low) 0 ;;
           Ok ("other", Py.capitalize tok)
  end.

(** *** Qualifiers *)

Definition any_in (phrases : list string) (low : string) : bool :=
  existsb (fun s => Py.contains s low) phrases.

Definition derive_stop_qualifier (op_name : string) : string :=
  let low := norm op_name in
  if any_in STOP_FREED_SUBSTRINGS low then QUAL_BILLING_FREED
  else if any_in STOP_CONTINUE_SUBSTRINGS low then QUAL_BILLING_CONTINUES
  else "".

(** A row of the table: column name to the text [str] gives for the cell. *)
Definition row := dict string.

(** [row.get(k, default)]. *)
Definition row_get (r : row) (k : string) (default : string) : string :=
  get_or (dict_get r k) default.

(** The list [q] of [derive_qualifiers] when it is joined. *)
Definition qualifier_list (r : row) (action_key op_name : string) : list string :=
  let q : list string := [] in
  let q := if String.eqb (Py.upper (row_get r "IsDataAction" (row_get r "is_data" ""))) "TRUE"
           then (q ++ [QUAL_DATA])%list else q in
  let low := norm op_name in
  let q := if Py.contains "admin" low && Py.contains "login" low
           then (q ++ [QUAL_ADMIN])%list else q in
  let q := if Py.contains "all disks" low then (q ++ [QUAL_ALL_DISKS])%list else q in
  let q := if String.eqb action_key "stopped"
           then let stop_q := derive_stop_qualifier op_name in
                if nonempty stop_q then (q ++ [stop_q])%list else q
           else q in
  q.

Definition derive_qualifiers (r : row) (action_key op_name : string) : string :=
  let q := qualifier_list r action_key op_name in
  match q with
  | [] => ""
  | _ => Py.join ";" q
  end.

(** *** Label composer *)

Definition build_common_name (obj_label action_label qualifiers : string) : string :=
  let base := obj_label ++ " " ++ action_label in
  base ++ (if nonempty qualifiers then " (" ++ qualifiers ++ ")" else "").

(** [.] of [re]: any character but the line feed. *)
Definition not_newline (c : ascii) : bool := negb (Ascii.eqb c "010").

(** [[^A-Za-z0-9 ]]. *)
Definition not_alnum_space (c : ascii) : bool :=
  negb (Py.is_upper c || Py.is_lower c || Py.is_digit c || Ascii.eqb c " ").

(** [\s+\(.*\)$]. *)
Definition QUALIFIER_SUFFIX : Re.regex :=
  [Re.Plus Py.is_space; Re.One (Re.lit "("); Re.Star not_newline;
   Re.One (Re.lit ")"); Re.Eol].

Definition aggregation_key (common_name : string) : string :=
  let base := Re.sub QUALIFIER_SUFFIX "" common_name in
  let base := Py.replace base " or " " OR " in
  let base := Re.sub [Re.One not_alnum_space] "" base in
  Py.replace (Py.upper base) " " "_".

(** *** Row pipeline *)

(** The table read from the file: its columns in order, each with the text
    of its cells, one per row. *)
Record DataFrame : Type := {
  nrows : nat;
  columns : dict (list string)
}.

Definition column_names (df : DataFrame) : list string := map fst (columns df).

(** The rows [df.iterrows()] yields. *)
Definition row_at (df : DataFrame) (i : nat) : row :=
  map (fun '(c, cells) => (c, nth i cells "nan")) (columns df).

Definition iterrows (df : DataFrame) : list row := map (row_at df) (seq 0 (nrows df)).

(** [df[name] = values]. *)
Definition set_column (df : DataFrame) (name : string) (values : list string)
  : DataFrame :=
  {| nrows := nrows df; columns := dict_set (columns df) name values |}.

(** The five lists the loop of [normalize_file] fills. *)
Record derived : Type := {
  common_names : list string;
  canon_actions : list string;
  object_types : list string;
  qualifiers : list string;
  agg_keys : list string
}.

Fixpoint classify_rows (op_col rt_col : string) (lookup : object_lookup)
  (variants : action_variants) (rows : list row) (acc : derived) : result derived :=
  match rows with
  | [] => Ok acc
  | r :: rows' =>
      op_name <- getitem r op_col ;;
      resource_type <- getitem r rt_col ;;
      let obj_label := classify_object resource_type op_name lookup in
      kl <- classify_action op_name variants ;;
      let '(action_key, action_label) := kl in
      let qs := derive_qualifiers r action_key op_name in
      let common := build_common_name obj_label action_label qs in
      let agg := aggregation_key common in
      classify_rows op_col rt_col lookup variants rows'
        {| common_names := (common_names acc ++ [common])%list;
           canon_actions := (canon_actions acc ++ [action_label])%list;
           object_types := (object_types acc ++ [obj_label])%list;
           qualifiers := (qualifiers acc ++ [qs])%list;
           agg_keys := (agg_keys acc ++ [agg])%list |}
  end.

(** [normalize_file] on a table already read; the result is the table it
    writes. *)
Definition normalize_file (df : DataFrame) (provider : string)
  (lookup : object_lookup) (variants : action_variants) : result DataFrame :=
  mapping <- map_columns (column_names df) ;;
  op_col <- getitem mapping "operation" ;;
  rt_col <- getitem mapping "resource_type" ;;
  d <- classify_rows op_col rt_col lookup variants (iterrows df)
         {| common_names := []; canon_actions := []; object_types := [];
            qualifiers := []; agg_keys := [] |} ;;
  let df := set_column df "CommonActivityName" (common_names d) in
  let df := set_column df "CanonicalAction" (canon_actions d) in
  let df := set_column df "ObjectType" (object_types d) in
  let df := set_column df "Qualifiers" (qualifiers d) in
  let df := set_column df "AggregationKey" (agg_keys d) in
  let df := set_column df "Provider" (repeat (Py.capitalize provider) (nrows df)) in
  Ok df.

Definition discover_provider (file_name : string) : string :=
  let f := Py.lower file_name in
  if Py.startswith f "azure" then "azure"
  else if Py.startswith f "aws" then "aws"
  else if Py.startswith f "gcp" then "gcp"
  else "generic".

(** ** Vocabulary of the properties *)

(** *** Texts *)

Fixpoint all_chars (P : ascii -> bool) (s : string) : bool :=
  match s with
  | EmptyString => true
  | String c s' => P c && all_chars P s'
  end.

Definition not_char (c : ascii) : ascii -> bool := fun x => negb (Ascii.eqb c x).

(** The text is ASCII: on such text [str.upper] and [str.lower] are the
    functions [Py.upper] and [Py.lower]. *)
Definition is_ascii (s : string) : bool :=
  all_chars (fun c => Nat.ltb (nat_of_ascii c) 128) s.

(** The line feed, as a text. *)
Definition LF : string := String "010" "".

(** Every whitespace character of the text is the space. *)
Fixpoint spaces_only (s : string) : bool :=
  match s with
  | EmptyString => true
  | String c s' => (negb (Py.is_space c) || Ascii.eqb c " ") && spaces_only s'
  end.

(** The text does not start with whitespace. *)
Definition starts_clean (s : string) : bool :=
  match s with
  | EmptyString => true
  | String c _ => negb (Py.is_space c)
  end.

(** The text is made of whitespace only (or is empty). *)
Fixpoint all_space (s : string) : bool :=
  match s with
  | EmptyString => true
  | String c s' => Py.is_space c && all_space s'
  end.

(** The text is not empty and its last character is not whitespace. *)
Fixpoint ends_nonspace (s : string) : bool :=
  match s with
  | EmptyString => false
  | String c EmptyString => negb (Py.is_space c)
  | String _ s' => ends_nonspace s'
  end.

Fixpoint until_space (s : string) : string :=
  match s with
  | EmptyString => EmptyString
  | String c s' => if Py.is_space c then EmptyString else String c (until_space s')
  end.

(** The first whitespace-delimited token of a text: leading whitespace
    apart, what precedes the first whitespace character. *)
Definition first_token (s : string) : string := until_space (Py.lstrip s).

(** *** The action index *)

(** No variant has a longer phrase than a variant before it. *)
Fixpoint longest_first (l : action_variants) : Prop :=
  match l with
  | [] => True
  | v :: l' =>
      (forall w, In w l' -> String.length (phrase_of w) <= String.length (phrase_of v))
      /\ longest_first l'
  end.

(** *** Columns *)

(** The candidate headers of a canonical role. *)
Definition hints_of (role : string) : list string :=
  get_or (dict_get COL_HINTS role) [].

(** The error of [map_columns]: the program has no exception class of its
    own for it and raises [ValueError]. *)
Definition NO_OPERATION : exn := ValueError "Could not identify operation column.".

(** *** Qualifiers *)

(** The test of the data-action flag in [derive_qualifiers]. *)
Definition data_flag (r : row) : bool :=
  String.eqb (Py.upper (row_get r "IsDataAction" (row_get r "is_data" ""))) "TRUE".

(** The billing qualifier of an operation name, as a list of at most one
    qualifier: the freed phrases are tested before the continues phrases. *)
Definition billing_qualifier (op_name : string) : list string :=
  let low := norm op_name in
  if any_in STOP_FREED_SUBSTRINGS low then [QUAL_BILLING_FREED]
  else if any_in STOP_CONTINUE_SUBSTRINGS low then [QUAL_BILLING_CONTINUES]
  else [].

(** A qualifier that is present or not. *)
Definition opt (b : bool) (q : string) : list string := if b then [q] else [].

(** *** The suffix pattern, in two parts *)

(** What follows the whitespace in [QUALIFIER_SUFFIX]. *)
Definition after_spaces : string -> option string :=
  Re.match_at [Re.One (Re.lit "("); Re.Star not_newline; Re.One (Re.lit ")"); Re.Eol].

(** What follows the parenthesized text. *)
Definition after_dots : string -> option string :=
  Re.match_at [Re.One (Re.lit ")"); Re.Eol].

(** *** Normal form of [norm] *)

Definition nonspace_head (s : string) : bool :=
  match s with
  | EmptyString => false
  | String d _ => negb (Py.is_space d)
  end.

(** Every whitespace character of the text is a space, and the character
    after it is not whitespace. *)
Fixpoint single_spaced (s : string) : bool :=
  match s with
  | EmptyString => true
  | String c s' =>
      (negb (Py.is_space c) || (Ascii.eqb c " " && nonspace_head s'))
      && single_spaced s'
  end.

Definition not_upper (c : ascii) : bool := negb (Py.is_upper c).

(** The texts [norm] returns: no upper-case letter, no whitespace at either
    end, and single spaces as the only whitespace. *)
Definition normalized (s : string) : bool :=
  starts_clean s && single_spaced s && all_chars not_upper s.

(** The text is empty or ends in a character that is not whitespace. *)
Definition ends_clean (s : string) : bool :=
  match s with
  | EmptyString => true
  | _ => ends_nonspace s
  end.

(** [re.sub(r"\s+", " ", s)]. *)
Definition collapse (s : string) : string := Re.sub [Re.Plus Py.is_space] " " s.

(** *** Taxonomy contents *)

(** The variants of the action taxonomy in the order of the file, each
    normalized and paired with the key and label of its entry. *)
Definition taxonomy_variants (actions_yaml : dict action_entry) : action_variants :=
  flat_map
    (fun '(key, data) =>
       map (fun variant => (norm variant, key, label data))
           (get_or (provider_variants data) []))
    actions_yaml.

Definition phrase_length_is (n : nat) (v : variant) : bool :=
  Nat.eqb (String.length (phrase_of v)) n.

(** The aliases of the object taxonomy in the order of the file, each
    normalized and paired with the canonical label of its entry. *)
Definition taxonomy_aliases (objects_yaml : dict object_entry) : list (string * string) :=
  flat_map
    (fun '(_, data) =>
       flat_map
         (fun '(_, aliases) => map (fun alias => (norm alias, canonical_label data)) aliases)
         (get_or (provider_aliases data) []))
    objects_yaml.

(** The dictionary a sequence of assignments [d[k] = v] builds from [acc]. *)
Definition dict_from {V : Type} (acc : dict V) (pairs : list (string * V)) : dict V :=
  fold_left (fun d '(k, v) => dict_set d k v) pairs acc.

(** *** Outcomes of the classifiers *)

(** The text the Object Classifier searches for aliases. *)
Definition combo_of (resource_type op_name : string) : string :=
  Py.lower (resource_type ++ " " ++ op_name).

(** The four (key, label) pairs of the prefix heuristics. *)
Definition HEURISTIC_ACTIONS : list (string * string) :=
  [("retrieved", "Retrieved"); ("created", "Created");
   ("updated", "Updated"); ("deleted", "Deleted")].

(** The characters of an aggregation key. *)
Definition key_char (c : ascii) : bool :=
  Py.is_upper c || Py.is_digit c || Ascii.eqb c "_".

Definition upper_digit_space (c : ascii) : bool :=
  Py.is_upper c || Py.is_digit c || Ascii.eqb c " ".

(** *** The output table *)

(** The six columns [normalize_file] assigns. *)
Definition DERIVED_COLUMNS : list string :=
  ["CommonActivityName"; "CanonicalAction"; "ObjectType"; "Qualifiers";
   "AggregationKey"; "Provider"].




(** The table with the five derived columns of [d] and the provider column
    assigned, in the order of [normalize_file]. *)
Definition with_derived (df : DataFrame) (d : derived) (provider : string) : DataFrame :=
  set_column
    (set_column
       (set_column
          (set_column
             (set_column
                (set_column df "CommonActivityName" (common_names d))
                "CanonicalAction" (canon_actions d))
             "ObjectType" (object_types d))
          "Qualifiers" (qualifiers d))
       "AggregationKey" (agg_keys d))
    "Provider" (repeat (Py.capitalize provider) (nrows df)).

Definition no_rows : derived :=
  {| common_names := []; canon_actions := []; object_types := [];
     qualifiers := []; agg_keys := [] |}.

(** *** The column mapping *)

(** The canonical roles. *)
Definition ROLES : list string := map fst COL_HINTS.

(** The tags [discover_provider] can return. *)
Definition PROVIDERS : list string := ["azure"; "aws"; "gcp"; "generic"].

(** *** Sample inputs *)

(** The two-variant action taxonomy of the longest-match example. *)
Definition stop_taxonomy : dict action_entry :=
  [ ("stop", {| label := "Stop"; provider_variants := Some ["stop"] |});
    ("stopped", {| label := "Stopped"; provider_variants := Some ["stop instance"] |}) ].

Definition stop_index : action_variants := build_action_variants stop_taxonomy.

(** Two rows with a blank operation name that differ in the data flag. *)
Definition blank_table : DataFrame :=
  {| nrows := 2;
     columns := [ ("Operation", [" "; " "]); ("IsDataAction", ["True"; "False"]) ] |}.

Definition sample_table : DataFrame :=
  {| nrows := 2;
     columns := [ ("Operation", ["Admin Login All Disks"; "Stop Instance"]);
                  ("IsDataAction", ["True"; "False"]);
                  ("Resource Type", ["Disks"; "Bus"]) ] |}.

(** Case analysis on the condition of a conditional of the goal. *)
Ltac case_if :=
  match goal with |- context [if ?b then _ else _] => destruct b end.

(** * Properties *)

(** ** The model on sample inputs *)

Example stop_index_order :
  stop_index = [("stop instance", "stopped", "Stopped"); ("stop", "stop", "Stop")].
Proof. reflexivity. Qed.

Example norm_collapses : norm "  Stop   Instance  X " = "stop instance x".
Proof. reflexivity. Qed.

Example suffix_regex_samples :
  map (Re.sub QUALIFIER_SUFFIX "")
      ["A  (Data)"; "A (a) (b)"; "a (b) c Act (q)"; "A (x) "; "A ()"]
  = ["A"; "A"; "a"; "A (x) "; "A"].
Proof. reflexivity. Qed.

(** The end anchor also matches before a final line feed, and "." does not
    pass a line feed. *)
Example suffix_regex_line_feeds :
  map (Re.sub QUALIFIER_SUFFIX "")
      ["A B (x)" ++ LF; "A (a" ++ LF ++ "b)"; "A (x)" ++ LF ++ LF;
       "A (a" ++ LF ++ " (b)"]
  = ["A B" ++ LF; "A (a" ++ LF ++ "b)"; "A (x)" ++ LF ++ LF; "A (a"].
Proof. reflexivity. Qed.

Example split_samples :
  Py.split " " "" = [""] /\ Py.split " " "a  b" = ["a"; ""; "b"].
Proof. split; reflexivity. Qed.

(** ** Facts about the string primitives *)

Lemma nonempty_true (s : string) : nonempty s = true <-> s <> "".
Proof. destruct s; simpl; split; congruence. Qed.

Lemma prefix_empty_text (p : string) : p <> "" -> prefix p "" = false.
Proof. destruct p; simpl; congruence. Qed.

Lemma contains_empty_text (p : string) : p <> "" -> Py.contains p "" = false.
Proof. destruct p; simpl; congruence. Qed.

Lemma app_assoc_string (a b c : string) : (a ++ b) ++ c = a ++ b ++ c.
Proof. induction a as [|x a IH]; simpl; [reflexivity|now rewrite IH]. Qed.

Lemma app_empty_r (a : string) : a ++ "" = a.
Proof. induction a as [|x a IH]; simpl; [reflexivity|now rewrite IH]. Qed.

Lemma split_cons (sep : ascii) (s : string) :
  exists t ts, Py.split sep s = t :: ts.
Proof.
  induction s as [|c s IH]; simpl.
  - now exists "", [].
  - destruct (Ascii.eqb c sep).
    + now exists "", (Py.split sep s).
    + destruct IH as (t & ts & ->). now exists (String c t), ts.
Qed.

Lemma index_split_ok (sep : ascii) (s : string) :
  exists t, Py.index (Py.split sep s) 0 = Ok t.
Proof. destruct (split_cons sep s) as (t & ts & ->). now exists t. Qed.

(** ** The action index is sorted longest phrase first *)

Lemma in_insert_variant (v w : variant) (l : action_variants) :
  In w (insert_variant v l) <-> w = v \/ In w l.
Proof.
  induction l as [|a l IH]; simpl.
  - intuition.
  - destruct (Nat.ltb _ _); simpl; rewrite ?IH; intuition.
Qed.

Lemma insert_variant_longest_first (v : variant) (l : action_variants) :
  longest_first l -> longest_first (insert_variant v l).
Proof.
  induction l as [|a l IH]; simpl.
  - intros _. split; [intros w []|exact I].
  - intros [Ha Hl].
    destruct (Nat.ltb _ _) eqn:E; simpl.
    + apply Nat.ltb_lt in E. split; [|now apply IH].
      intros w Hw. apply in_insert_variant in Hw as [->|Hw]; [lia|now apply Ha].
    + apply Nat.ltb_ge in E. repeat split; trivial.
      intros w [<-|Hw]; [lia|]. specialize (Ha w Hw). lia.
Qed.

Lemma sort_longest_first_sorted (l : action_variants) :
  longest_first (sort_longest_first l).
Proof.
  induction l as [|v l IH]; simpl; [exact I|].
  now apply insert_variant_longest_first.
Qed.

Lemma build_action_variants_sorted (actions_yaml : dict action_entry) :
  longest_first (build_action_variants actions_yaml).
Proof. apply sort_longest_first_sorted. Qed.

(** The scan returns the first variant that occurs in the text; in an index
    sorted longest first no variant that occurs is longer. *)
Lemma first_variant_longest (idx : action_variants) (low : string) :
  longest_first idx ->
  forall p k l, In (p, k, l) idx -> p <> "" -> Py.contains p low = true ->
  exists p' k' l',
    first_variant idx low = Some (k', l')
    /\ In (p', k', l') idx /\ p' <> "" /\ Py.contains p' low = true
    /\ forall q kq lq, In (q, kq, lq) idx -> q <> "" -> Py.contains q low = true ->
         String.length q <= String.length p'.
Proof.
  induction idx as [|[[p0 k0] l0] idx IH]; simpl; [intros _ p k l []|].
  intros [Hhd Htl] p k l Hin Hp Hc.
  destruct (nonempty p0 && Py.contains p0 low) eqn:E.
  - apply andb_true_iff in E as [E1 E2]. apply nonempty_true in E1.
    exists p0, k0, l0. repeat split; auto.
    intros q kq lq [Hq|Hq] _ _.
    + injection Hq as -> _ _. lia.
    + apply (Hhd _ Hq).
  - destruct Hin as [Hin|Hin].
    + injection Hin as -> -> ->.
      apply nonempty_true in Hp. rewrite Hp, Hc in E. discriminate.
    + destruct (IH Htl p k l Hin Hp Hc) as (p' & k' & l' & H1 & H2 & H3 & H4 & H5).
      exists p', k', l'. repeat split; auto.
      intros q kq lq [Hq|Hq] Hqn Hqc.
      * injection Hq as -> _ _.
        apply nonempty_true in Hqn. rewrite Hqn, Hqc in E. discriminate.
      * now apply (H5 q kq lq).
Qed.

Lemma first_variant_none (idx : action_variants) (low : string) :
  (forall p k l, In (p, k, l) idx -> p <> "" -> Py.contains p low = false) ->
  first_variant idx low = None.
Proof.
  induction idx as [|[[p0 k0] l0] idx IH]; simpl; [reflexivity|].
  intros H. destruct (nonempty p0) eqn:E; simpl.
  - rewrite (H p0 k0 l0); [|now left|now apply nonempty_true].
    apply IH. intros p k l Hin. apply (H p k l). now right.
  - apply IH. intros p k l Hin. apply (H p k l). now right.
Qed.

(** ** Action classifier *)

(** C1 (as amended): the Action Classifier returns the key and label of a
    variant that occurs in the normalized operation name and whose phrase is
    at least as long as every other occurring variant of the index; with the
    variants "stop" (key stop) and "stop instance" (key stopped) the
    operation name "Stop Instance" is classified as stopped. *)
Theorem classify_action_longest_match :
  (forall (actions_yaml : dict action_entry) (op_name p k l : string),
      let idx := build_action_variants actions_yaml in
      In (p, k, l) idx -> p <> "" -> Py.contains p (norm op_name) = true ->
      exists p' k' l',
        classify_action op_name idx = Ok (k', l')
        /\ In (p', k', l') idx /\ p' <> "" /\ Py.contains p' (norm op_name) = true
        /\ forall q kq lq, In (q, kq, lq) idx -> q <> "" ->
             Py.contains q (norm op_name) = true ->
             String.length q <= String.length p')
  /\ classify_action "Stop Instance" stop_index = Ok ("stopped", "Stopped").
Proof.
  split; [|reflexivity].
  intros yaml op p k l idx Hin Hp Hc.
  destruct (first_variant_longest idx (norm op)
              (build_action_variants_sorted yaml) p k l Hin Hp Hc)
    as (p' & k' & l' & H1 & H2).
  exists p', k', l'. split; [|exact H2].
  unfold classify_action. now rewrite H1.
Qed.

Lemma classify_action_longest_match_witness :
  exists p' k' l',
    classify_action "Stop Instance" stop_index = Ok (k', l')
    /\ In (p', k', l') stop_index /\ p' <> ""
    /\ Py.contains p' (norm "Stop Instance") = true
    /\ forall q kq lq, In (q, kq, lq) stop_index -> q <> "" ->
         Py.contains q (norm "Stop Instance") = true ->
         String.length q <= String.length p'.
Proof.
  apply (proj1 classify_action_longest_match stop_taxonomy "Stop Instance"
           "stop" "stop" "Stop").
  - simpl. right. left. reflexivity.
  - discriminate.
  - reflexivity.
Defined.

(** C1, the claim as written fails: "StopInstance" normalizes to
    "stopinstance", in which "stop instance" does not occur, so the shorter
    variant "stop" is the one returned. *)
Lemma classify_action_StopInstance_is_stop :
  norm "StopInstance" = "stopinstance"
  /\ Py.contains "stop instance" (norm "StopInstance") = false
  /\ classify_action "StopInstance" stop_index = Ok ("stop", "Stop")
  /\ classify_action "StopInstance" stop_index <> Ok ("stopped", "Stopped").
Proof. repeat split; try reflexivity. discriminate. Qed.

(** ** Normalized text *)

Lemma is_space_lower_char (c : ascii) : Py.is_space (Py.lower_char c) = Py.is_space c.
Proof. destruct c as [[] [] [] [] [] [] [] []]; reflexivity. Qed.

Lemma star_always (cls : ascii -> bool) (s : string) :
  exists rest, Re.star cls (fun t => Some t) s = Some rest.
Proof.
  induction s as [|c s [rest IH]]; simpl.
  - now exists "".
  - destruct (cls c); [rewrite IH|]; eauto.
Qed.

Lemma sub_spaces_spaces_only (skip : nat) (s : string) :
  spaces_only (Re.sub_from [Re.Plus Py.is_space] " " skip s) = true.
Proof.
  revert skip. induction s as [|c s IH]; intros skip; simpl; [reflexivity|].
  destruct skip as [|k]; [|apply IH].
  destruct (Py.is_space c) eqn:E.
  - destruct (star_always Py.is_space s) as [rest ->]. simpl. apply IH.
  - simpl. rewrite E, IH. reflexivity.
Qed.

Lemma sub_spaces_starts_clean (s : string) :
  starts_clean s = true ->
  starts_clean (Re.sub [Re.Plus Py.is_space] " " s) = true.
Proof.
  destruct s as [|c s]; unfold Re.sub; simpl; [reflexivity|].
  destruct (Py.is_space c) eqn:E; [discriminate|]. simpl. now rewrite E.
Qed.

Lemma lstrip_starts_clean (s : string) : starts_clean (Py.lstrip s) = true.
Proof.
  induction s as [|c s IH]; simpl; [reflexivity|].
  destruct (Py.is_space c) eqn:E; [exact IH|]. simpl. now rewrite E.
Qed.

Lemma rstrip_starts_clean (s : string) :
  starts_clean s = true -> starts_clean (Py.rstrip s) = true.
Proof.
  destruct s as [|c s]; simpl; [reflexivity|].
  intros H. destruct (Py.rstrip s); [|exact H].
  destruct (Py.is_space c) eqn:E; [discriminate|]. simpl. now rewrite E.
Qed.

Lemma lower_starts_clean (s : string) :
  starts_clean s = true -> starts_clean (Py.lower s) = true.
Proof.
  destruct s as [|c s]; simpl; [reflexivity|]. now rewrite is_space_lower_char.
Qed.

Lemma norm_spaces_only (s : string) : spaces_only (norm s) = true.
Proof. apply sub_spaces_spaces_only. Qed.

Lemma norm_starts_clean (s : string) : starts_clean (norm s) = true.
Proof.
  apply sub_spaces_starts_clean, lower_starts_clean, rstrip_starts_clean,
    lstrip_starts_clean.
Qed.

Lemma lstrip_all_space (s : string) : all_space s = true -> Py.lstrip s = "".
Proof.
  induction s as [|c s IH]; simpl; [reflexivity|].
  intros H. apply andb_true_iff in H as [-> H]. now apply IH.
Qed.

Lemma norm_all_space (s : string) : all_space s = true -> norm s = "".
Proof.
  intros H. unfold norm, Py.strip. now rewrite (lstrip_all_space s H).
Qed.

Lemma lstrip_clean (s : string) : starts_clean s = true -> Py.lstrip s = s.
Proof.
  destruct s as [|c s]; simpl; [reflexivity|].
  destruct (Py.is_space c); [discriminate|reflexivity].
Qed.

Lemma split_until_space (s : string) :
  spaces_only s = true -> exists ts, Py.split " " s = until_space s :: ts.
Proof.
  induction s as [|c s IH]; simpl; [now exists []|].
  intros H. apply andb_true_iff in H as [Hc Hs].
  destruct (Ascii.eqb c " ") eqn:E.
  - apply Ascii.eqb_eq in E as ->. simpl. eauto.
  - rewrite orb_false_r in Hc. apply negb_true_iff in Hc. rewrite Hc.
    destruct (IH Hs) as [ts ->]. eauto.
Qed.

(** On a normalized name [low.split(" ")[0]] is the first
    whitespace-delimited token. *)
Lemma split_norm_first_token (s : string) :
  Py.index (Py.split " " (norm s)) 0 = Ok (first_token (norm s)).
Proof.
  destruct (split_until_space (norm s) (norm_spaces_only s)) as [ts ->].
  unfold first_token. now rewrite (lstrip_clean _ (norm_starts_clean s)).
Qed.

(** C5: when no (non-empty) variant of the index occurs in the normalized
    operation name, the fixed heuristics apply in this order: prefix "get",
    "read" or "list" or an occurrence of " list" gives retrieved; prefix
    "create" gives created; prefix "update" gives updated; prefix "delete"
    gives deleted; otherwise the key is other and the label is the
    capitalized first whitespace-delimited token of the normalized name. *)
Theorem classify_action_fallback_chain (op_name : string) (variants : action_variants) :
  (forall p k l, In (p, k, l) variants -> p <> "" ->
     Py.contains p (norm op_name) = false) ->
  classify_action op_name variants =
  Ok (let low := norm op_name in
      if Py.startswith low "get" || Py.startswith low "read"
         || Py.startswith low "list" || Py.contains " list" low
      then ("retrieved", "Retrieved")
      else if Py.startswith low "create" then ("created", "Created")
      else if Py.startswith low "update" then ("updated", "Updated")
      else if Py.startswith low "delete" then ("deleted", "Deleted")
      else ("other", Py.capitalize (first_token low))).
Proof.
  intros H. unfold classify_action.
  rewrite (first_variant_none variants (norm op_name) H).
  cbv zeta.
  destruct (_ || _); [reflexivity|].
  repeat (case_if; [reflexivity|]).
  now rewrite split_norm_first_token.
Qed.

Lemma classify_action_fallback_chain_witness :
  classify_action "Frobnicate  the LIST" stop_index = Ok ("retrieved", "Retrieved")
  /\ classify_action "CreateDisk" stop_index = Ok ("created", "Created")
  /\ classify_action "Frobnicate the thing" stop_index = Ok ("other", "Frobnicate").
Proof.
  split; [|split].
  - apply (classify_action_fallback_chain "Frobnicate  the LIST" stop_index).
    intros p k l [H|[H|[]]] _; injection H as <- _ _; reflexivity.
  - apply (classify_action_fallback_chain "CreateDisk" stop_index).
    intros p k l [H|[H|[]]] _; injection H as <- _ _; reflexivity.
  - apply (classify_action_fallback_chain "Frobnicate the thing" stop_index).
    intros p k l [H|[H|[]]] _; injection H as <- _ _; reflexivity.
Defined.

(** The Action Classifier never raises: [low.split(" ")] is never empty. *)
Lemma classify_action_ok (op_name : string) (variants : action_variants) :
  exists key label, classify_action op_name variants = Ok (key, label).
Proof.
  unfold classify_action.
  destruct (first_variant _ _) as [[k l]|]; [now exists k, l|].
  repeat (case_if; [eauto|]).
  destruct (index_split_ok " " (norm op_name)) as [t ->]. simpl. eauto.
Qed.

(** C4 (as amended): the Object Classifier returns a non-empty label
    whenever no canonical label of the Object Index is empty, and always when
    it falls back to the resource type; the Action Classifier returns a
    (key, label) pair for every operation name and every Action Index.
    Neither raises. *)
Theorem classifiers_total :
  (forall (resource_type op_name : string) (lookup : object_lookup),
      (forall alias label, In (alias, label) lookup -> label <> "") ->
      classify_object resource_type op_name lookup <> "")
  /\ (forall (resource_type op_name : string) (lookup : object_lookup),
      first_alias lookup (Py.lower (resource_type ++ " " ++ op_name)) = None ->
      classify_object resource_type op_name lookup <> "")
  /\ (forall (op_name : string) (variants : action_variants),
      exists key label, classify_action op_name variants = Ok (key, label)).
Proof.
  assert (Hfb : forall rt : string, (if nonempty rt then rt else "Resource") <> "").
  { intros [|c rt]; simpl; discriminate. }
  repeat split.
  - intros rt op lookup Hl. unfold classify_object.
    destruct (first_alias _ _) as [label|] eqn:E; [|apply Hfb].
    revert E. induction lookup as [|[a l] lookup IH]; simpl; [discriminate|].
    destruct (Py.contains a _).
    + intros [= <-]. apply (Hl a l). now left.
    + apply IH. intros a' l' Hin. apply (Hl a' l'). now right.
  - intros rt op lookup E. unfold classify_object. rewrite E. apply Hfb.
  - apply classify_action_ok.
Qed.

Lemma classifiers_total_witness :
  classify_object "Virtual Machines" "deallocate"
    [("virtual machines", "Virtual Machine")] <> ""
  /\ classify_object "" "" [] <> "".
Proof.
  split.
  - apply (proj1 classifiers_total).
    intros alias label [H|[]]. injection H as _ <-. discriminate.
  - apply (proj1 (proj2 classifiers_total)). reflexivity.
Defined.

(** C4, the claim as written fails: an Object Index may hold an empty
    canonical label, and the classifier returns it as it is. *)
Lemma classify_object_empty_label :
  classify_object "vm" "start" [("vm", "")] = "".
Proof. reflexivity. Qed.

(** ** Object classifier: the fallback *)

Lemma first_alias_none (lookup : object_lookup) (combo : string) :
  (forall alias label, In (alias, label) lookup -> Py.contains alias combo = false) ->
  first_alias lookup combo = None.
Proof.
  induction lookup as [|[a l] lookup IH]; simpl; [reflexivity|].
  intros H. rewrite (H a l); [|now left].
  apply IH. intros a' l' Hin. apply (H a' l'). now right.
Qed.

Lemma length_drop_last (s : string) :
  String.length (Py.drop_last s) = String.length s - 1.
Proof.
  induction s as [|c s IH]; simpl; [reflexivity|].
  destruct s as [|d s]; [reflexivity|].
  simpl in *. rewrite IH. lia.
Qed.

Lemma endswith_char_drop_last (s : string) (c : ascii) :
  Py.endswith s (String c "") = true -> Py.drop_last s ++ String c "" = s.
Proof.
  induction s as [|a s IH]; [discriminate|].
  destruct s as [|b s].
  - simpl. rewrite orb_false_r.
    destruct (Ascii.eqb_spec a c) as [->|]; [reflexivity|discriminate].
  - intros H. change (Py.endswith (String a (String b s)) (String c ""))
      with (String.eqb (String a (String b s)) (String c "")
            || Py.endswith (String b s) (String c "")) in H.
    replace (String.eqb (String a (String b s)) (String c "")) with false in H
      by (simpl; now destruct (Ascii.eqb a c)).
    simpl in H. change (Py.drop_last (String a (String b s)))
      with (String a (Py.drop_last (String b s))).
    simpl. f_equal. apply IH. exact H.
Qed.

(** C6: with no alias match the Object Classifier trims the resource type,
    drops its last character exactly when it ends in "s" and is longer than
    3 characters, and returns "Resource" when the result is empty. *)
Theorem classify_object_fallback_singular
  (resource_type op_name : string) (lookup : object_lookup) :
  (forall alias label, In (alias, label) lookup ->
     Py.contains alias (Py.lower (resource_type ++ " " ++ op_name)) = false) ->
  let rt := Py.strip resource_type in
  classify_object resource_type op_name lookup =
    (if Py.endswith rt "s" && Nat.ltb 3 (String.length rt) then Py.drop_last rt
     else if String.eqb rt "" then "Resource" else rt)
  /\ (Py.endswith rt "s" = true -> Py.drop_last rt ++ "s" = rt).
Proof.
  intros H rt. split; [|apply endswith_char_drop_last].
  unfold classify_object. rewrite (first_alias_none _ _ H). fold rt.
  destruct (Py.endswith rt "s" && Nat.ltb 3 (String.length rt)) eqn:E.
  - apply andb_true_iff in E as [_ E]. apply Nat.ltb_lt in E.
    pose proof (length_drop_last rt) as L.
    destruct (Py.drop_last rt); [simpl in L; lia|reflexivity].
  - destruct rt; reflexivity.
Qed.

Lemma classify_object_fallback_singular_witness :
  classify_object "Disks" "Attach" [("bucket", "Storage Bucket")] = "Disk"
  /\ classify_object "Rows" "Attach" [("bucket", "Storage Bucket")] = "Row"
  /\ classify_object "Bus" "Attach" [("bucket", "Storage Bucket")] = "Bus"
  /\ classify_object "  " "Attach" [("bucket", "Storage Bucket")] = "Resource".
Proof.
  split; [|split; [|split]].
  - refine (proj1 (classify_object_fallback_singular "Disks" "Attach"
                     [("bucket", "Storage Bucket")] _)).
    intros a l [E|[]]. injection E as <- _. reflexivity.
  - refine (proj1 (classify_object_fallback_singular "Rows" "Attach"
                     [("bucket", "Storage Bucket")] _)).
    intros a l [E|[]]. injection E as <- _. reflexivity.
  - refine (proj1 (classify_object_fallback_singular "Bus" "Attach"
                     [("bucket", "Storage Bucket")] _)).
    intros a l [E|[]]. injection E as <- _. reflexivity.
  - refine (proj1 (classify_object_fallback_singular "  " "Attach"
                     [("bucket", "Storage Bucket")] _)).
    intros a l [E|[]]. injection E as <- _. reflexivity.
Defined.

(** ** Qualifiers *)

(** The qualifier list is the concatenation, in this order, of the optional
    Data, Admin and All Disks qualifiers and of the billing part. *)
Lemma qualifier_list_parts (r : row) (action_key op_name : string) :
  qualifier_list r action_key op_name =
  (opt (data_flag r) QUAL_DATA
   ++ opt (Py.contains "admin" (norm op_name) && Py.contains "login" (norm op_name))
        QUAL_ADMIN
   ++ opt (Py.contains "all disks" (norm op_name)) QUAL_ALL_DISKS
   ++ (if String.eqb action_key "stopped" then billing_qualifier op_name else []))%list.
Proof.
  unfold qualifier_list, billing_qualifier, derive_stop_qualifier, data_flag, opt.
  destruct (String.eqb (Py.upper _) "TRUE");
    destruct (Py.contains "admin" _ && Py.contains "login" _);
    destruct (Py.contains "all disks" _);
    destruct (String.eqb action_key "stopped");
    try reflexivity;
    destruct (any_in STOP_FREED_SUBSTRINGS _); try reflexivity;
    destruct (any_in STOP_CONTINUE_SUBSTRINGS _); reflexivity.
Qed.

Lemma any_in_freed (low : string) :
  any_in STOP_FREED_SUBSTRINGS low =
  Py.contains "deallocate" low || Py.contains "stop instance" low
  || Py.contains "stop instances" low || Py.contains "stopped" low.
Proof.
  unfold any_in, STOP_FREED_SUBSTRINGS. cbn [existsb].
  now rewrite orb_false_r, !orb_assoc.
Qed.

Lemma any_in_continues (low : string) :
  any_in STOP_CONTINUE_SUBSTRINGS low =
  Py.contains "power off" low || Py.contains "poweroff" low.
Proof.
  unfold any_in, STOP_CONTINUE_SUBSTRINGS. cbn [existsb]. now rewrite orb_false_r.
Qed.

Lemma derive_qualifiers_join (r : row) (action_key op_name : string) :
  derive_qualifiers r action_key op_name
  = Py.join ";" (qualifier_list r action_key op_name).
Proof. unfold derive_qualifiers. now destruct (qualifier_list r action_key op_name). Qed.

(** C7: the billing qualifier is appended only for the action key stopped.
    For any other key the qualifiers are Data, Admin and All Disks at most.
    For stopped the same qualifiers are followed by "Billing Freed" when the
    normalized operation name contains "deallocate", "stop instance",
    "stop instances" or "stopped"; else by "Billing Continues" when it
    contains "power off" or "poweroff"; else by nothing.  The freed phrases
    are tested first.  The qualifier string is the list joined with ";". *)
Theorem billing_qualifier_only_when_stopped (r : row) (action_key op_name : string) :
  action_key <> "stopped" ->
  let low := norm op_name in
  let freed :=
    Py.contains "deallocate" low || Py.contains "stop instance" low
    || Py.contains "stop instances" low || Py.contains "stopped" low in
  let continues := Py.contains "power off" low || Py.contains "poweroff" low in
  let billing :=
    if freed then ["Billing Freed"]
    else if continues then ["Billing Continues"] else [] in
  Forall (fun q => In q ["Data"; "Admin"; "All Disks"])
         (qualifier_list r action_key op_name)
  /\ derive_qualifiers r action_key op_name
     = Py.join ";" (qualifier_list r action_key op_name)
  /\ qualifier_list r "stopped" op_name
     = (qualifier_list r action_key op_name ++ billing)%list
  /\ derive_qualifiers r "stopped" op_name
     = Py.join ";" (qualifier_list r action_key op_name ++ billing)%list.
Proof.
  intros Hk low freed continues billing. apply String.eqb_neq in Hk.
  assert (Hs : qualifier_list r "stopped" op_name
               = (qualifier_list r action_key op_name ++ billing)%list).
  { rewrite !qualifier_list_parts, Hk. simpl String.eqb. cbv iota.
    rewrite !app_nil_r. unfold billing_qualifier.
    rewrite any_in_freed, any_in_continues. fold low. fold freed. fold continues.
    fold billing. now rewrite !app_assoc. }
  split; [|split; [apply derive_qualifiers_join|split; [exact Hs|]]].
  - rewrite qualifier_list_parts, Hk, app_nil_r. unfold opt.
    destruct (data_flag r); destruct (_ && _); destruct (Py.contains "all disks" _);
      simpl; repeat first [apply Forall_nil | apply Forall_cons; [cbv; auto 6|]].
  - now rewrite derive_qualifiers_join, Hs.
Qed.

Lemma billing_qualifier_only_when_stopped_witness :
  (qualifier_list [("IsDataAction", "True")] "stopped" "Stopped by Power Off"
   = ["Data"; "Billing Freed"]
   /\ derive_qualifiers [("IsDataAction", "True")] "stopped" "Stopped by Power Off"
      = "Data;Billing Freed")
  /\ (derive_qualifiers [] "stopped" "VM PowerOff" = "Billing Continues"
      /\ derive_qualifiers [] "stopped" "Power Off VM" = "Billing Continues")
  /\ (derive_qualifiers [] "stopped" "Deallocate VM" = "Billing Freed"
      /\ derive_qualifiers [] "stopped" "Stop Instances" = "Billing Freed")
  /\ (derive_qualifiers [] "stopped" "Halt VM" = ""
      /\ derive_qualifiers [] "other" "VM PowerOff" = "").
Proof.
  split; [|split; [|split]].
  - split;
      apply (billing_qualifier_only_when_stopped
               [("IsDataAction", "True")] "other" "Stopped by Power Off");
      discriminate.
  - split; [apply (billing_qualifier_only_when_stopped [] "other" "VM PowerOff")
           |apply (billing_qualifier_only_when_stopped [] "other" "Power Off VM")];
      discriminate.
  - split; [apply (billing_qualifier_only_when_stopped [] "other" "Deallocate VM")
           |apply (billing_qualifier_only_when_stopped [] "other" "Stop Instances")];
      discriminate.
  - split; [apply (billing_qualifier_only_when_stopped [] "other" "Halt VM")
           |apply (billing_qualifier_only_when_stopped [] "other" "VM PowerOff")];
      discriminate.
Defined.

(** C8: the qualifiers come in the fixed order Data, Admin, All Disks and
    then the billing qualifier, each present or absent by its own test, and
    are joined with ";"; a row with a true data-action flag and the operation
    name "Admin Login All Disks" gets "Data;Admin;All Disks" when the action
    key is not stopped. *)
Theorem qualifier_order :
  (forall (r : row) (action_key op_name : string),
      let low := norm op_name in
      qualifier_list r action_key op_name =
        (opt (data_flag r) QUAL_DATA
         ++ opt (Py.contains "admin" low && Py.contains "login" low) QUAL_ADMIN
         ++ opt (Py.contains "all disks" low) QUAL_ALL_DISKS
         ++ (if String.eqb action_key "stopped" then billing_qualifier op_name
             else []))%list
      /\ derive_qualifiers r action_key op_name
         = Py.join ";" (qualifier_list r action_key op_name))
  /\ (forall (r : row) (action_key : string),
      data_flag r = true -> action_key <> "stopped" ->
      derive_qualifiers r action_key "Admin Login All Disks" = "Data;Admin;All Disks").
Proof.
  split.
  - intros r k op low. split; [apply qualifier_list_parts|].
    unfold derive_qualifiers. now destruct (qualifier_list r k op).
  - intros r k Hd Hk. apply String.eqb_neq in Hk.
    unfold derive_qualifiers. rewrite qualifier_list_parts, Hd, Hk. reflexivity.
Qed.

Lemma qualifier_order_witness :
  derive_qualifiers [("Operation", "Admin Login All Disks"); ("IsDataAction", "True")]
    "other" "Admin Login All Disks" = "Data;Admin;All Disks".
Proof.
  apply (proj2 qualifier_order
           [("Operation", "Admin Login All Disks"); ("IsDataAction", "True")] "other").
  - reflexivity.
  - discriminate.
Defined.

(** ** Blank operation names *)

Lemma first_variant_empty_text (variants : action_variants) :
  first_variant variants "" = None.
Proof.
  apply first_variant_none. intros p k l _ Hp. now apply contains_empty_text.
Qed.

(** C10 (as amended): for an empty or whitespace-only operation name the
    Action Classifier returns the key other with the empty label, and the
    common name of such a row is the object label, a single space, and the
    suffix " (Data)" when the data-action flag of the row is TRUE. *)
Theorem classify_action_blank (op_name : string) (variants : action_variants) :
  all_space op_name = true ->
  classify_action op_name variants = Ok ("other", "")
  /\ forall (r : row) (obj_label : string),
       build_common_name obj_label "" (derive_qualifiers r "other" op_name)
       = obj_label ++ " " ++ (if data_flag r then " (Data)" else "").
Proof.
  intros H. apply norm_all_space in H. split.
  - unfold classify_action. rewrite H, first_variant_empty_text. reflexivity.
  - intros r obj. unfold derive_qualifiers.
    rewrite qualifier_list_parts, H. simpl.
    unfold build_common_name.
    destruct (data_flag r); cbn; now rewrite ?app_assoc_string, ?app_empty_r.
Qed.

Lemma classify_action_blank_witness :
  classify_action "   " stop_index = Ok ("other", "")
  /\ forall (r : row) (obj_label : string),
       build_common_name obj_label "" (derive_qualifiers r "other" "   ")
       = obj_label ++ " " ++ (if data_flag r then " (Data)" else "").
Proof. apply (classify_action_blank "   " stop_index). reflexivity. Defined.

(** C10, the claim as written fails: with a TRUE data-action flag the
    common name of a row whose operation name is blank carries the qualifier
    suffix after the space. *)
Lemma blank_operation_with_data_flag :
  classify_action "  " stop_index = Ok ("other", "")
  /\ build_common_name "Bus" ""
       (derive_qualifiers [("IsDataAction", "TRUE")] "other" "  ") = "Bus  (Data)"
  /\ build_common_name "Bus" ""
       (derive_qualifiers [("IsDataAction", "TRUE")] "other" "  ") <> "Bus ".
Proof. split; [reflexivity|split; [reflexivity|discriminate]]. Qed.

(** ** Column resolver *)

Lemma dict_get_set {V : Type} (d : dict V) (k k' : string) (v : V) :
  dict_get (dict_set d k v) k' = if String.eqb k k' then Some v else dict_get d k'.
Proof.
  induction d as [|[k0 v0] d IH]; simpl; [reflexivity|].
  destruct (String.eqb_spec k0 k) as [->|Hk]; simpl.
  - now destruct (String.eqb k k').
  - rewrite IH. destruct (String.eqb_spec k0 k') as [->|]; [|reflexivity].
    destruct (String.eqb_spec k k'); congruence.
Qed.

Lemma lower_map_from_some (columns : list string) (acc : dict string) (h c : string) :
  dict_get (lower_map_from acc columns) h = Some c ->
  (In c columns /\ Py.lower c = h) \/ dict_get acc h = Some c.
Proof.
  revert acc. induction columns as [|x columns IH]; simpl; intros acc H; [now right|].
  destruct (IH _ H) as [[H1 H2]|H1]; [now left; auto|].
  rewrite dict_get_set in H1.
  destruct (String.eqb_spec (Py.lower x) h) as [E|]; [|now right].
  injection H1 as <-. left. auto.
Qed.

Lemma lower_map_from_keeps (columns : list string) (acc : dict string) (h : string) :
  dict_mem acc h = true -> dict_mem (lower_map_from acc columns) h = true.
Proof.
  revert acc. induction columns as [|x columns IH]; simpl; intros acc H; [exact H|].
  apply IH. unfold dict_mem in *. rewrite dict_get_set.
  now destruct (String.eqb (Py.lower x) h).
Qed.

Lemma lower_map_from_in (columns : list string) (acc : dict string) (c : string) :
  In c columns -> dict_mem (lower_map_from acc columns) (Py.lower c) = true.
Proof.
  revert acc. induction columns as [|x columns IH]; simpl; intros acc []; [|now apply IH].
  subst x. apply lower_map_from_keeps. unfold dict_mem.
  now rewrite dict_get_set, String.eqb_refl.
Qed.

(** A hint is found exactly when some column equals it once lower-cased. *)
Lemma first_hint_none (columns hints : list string) :
  first_hint (lower_map_from [] columns) hints = None <->
  (forall c, In c columns -> ~ In (Py.lower c) hints).
Proof.
  induction hints as [|h hints IH]; simpl; [tauto|].
  destruct (dict_get _ h) as [c0|] eqn:E.
  - split; [discriminate|]. intros H.
    apply lower_map_from_some in E as [[H1 H2]|]; [|discriminate].
    destruct (H c0 H1). now left.
  - rewrite IH. split; intros H c Hc.
    + intros [Heq|Hin]; [|now apply (H c Hc)].
      pose proof (lower_map_from_in columns [] c Hc) as M.
      unfold dict_mem in M. rewrite Heq in E. now rewrite E in M.
    + intros Hin. apply (H c Hc). now right.
Qed.

Lemma first_hint_some (columns hints : list string) (c : string) :
  first_hint (lower_map_from [] columns) hints = Some c ->
  In c columns /\ In (Py.lower c) hints.
Proof.
  induction hints as [|h hints IH]; simpl; [discriminate|].
  destruct (dict_get _ h) as [c0|] eqn:E.
  - intros [= <-]. apply lower_map_from_some in E as [[H1 H2]|]; [|discriminate].
    split; [exact H1|now left].
  - intros H. destruct (IH H). split; [assumption|now right].
Qed.

(** The two outcomes of [map_columns]. *)
Lemma map_columns_cases (cols : list string) :
  ((forall c, In c cols -> ~ In (Py.lower c) (hints_of "operation"))
   /\ map_columns cols = Raise NO_OPERATION)
  \/ (exists m op_col rt_col,
        map_columns cols = Ok m
        /\ dict_get m "operation" = Some op_col
        /\ dict_get m "resource_type" = Some rt_col
        /\ In op_col cols /\ In (Py.lower op_col) (hints_of "operation")
        /\ In rt_col cols
        /\ ((forall c, In c cols -> ~ In (Py.lower c) (hints_of "resource_type")) ->
            rt_col = op_col)).
Proof.
  pose proof (first_hint_none cols (hints_of "operation")) as Nop.
  pose proof (first_hint_none cols (hints_of "resource_type")) as Nrt.
  pose proof (first_hint_some cols (hints_of "operation")) as Sop.
  pose proof (first_hint_some cols (hints_of "resource_type")) as Srt.
  unfold map_columns, COL_HINTS, NO_OPERATION.
  cbn -[first_hint lower_map_from] in *.
  destruct (first_hint _ ["operation name"; _; _; _; _]) as [o|];
    [right; destruct (Sop o eq_refl) as [S1 S2]
    |left; split; [now apply Nop|]];
    destruct (first_hint _ ["resource type"; _; _; _]) as [t|];
    destruct (first_hint _ ["service"; _; _]);
    destruct (first_hint _ ["description"; _; _]);
    destruct (first_hint _ ["isdataaction"; _; _; _; _]);
    destruct (first_hint _ ["origin"; _]);
    cbn; try reflexivity.
  all: try (eexists; exists o, t; destruct (Srt t eq_refl) as [T1 _];
            repeat (split; [solve [reflexivity|assumption]|]);
            intros H; apply Nrt in H; discriminate).
  all: eexists; exists o, o; repeat (split; [solve [reflexivity|assumption]|]);
    intros _; reflexivity.
Qed.



(** ** Aggregation key *)

Lemma contains_char_false (c : ascii) (s : string) :
  Py.contains (String c "") s = false -> all_chars (not_char c) s = true.
Proof.
  induction s as [|x s IH]; simpl; [reflexivity|].
  unfold not_char at 1.
  destruct (ascii_dec c x) as [->|N].
  - destruct s; discriminate.
  - intros H. apply Ascii.eqb_neq in N. rewrite N. simpl. now apply IH.
Qed.

Lemma all_chars_app (P : ascii -> bool) (a b : string) :
  all_chars P (a ++ b) = all_chars P a && all_chars P b.
Proof.
  induction a as [|x a IH]; simpl; [reflexivity|]. now rewrite IH, andb_assoc.
Qed.

Lemma not_newline_not_char (s : string) :
  all_chars (not_char "010") s = true -> all_chars not_newline s = true.
Proof.
  induction s as [|x s IH]; simpl; [reflexivity|].
  unfold not_char at 1, not_newline at 1. rewrite Ascii.eqb_sym.
  intros H. apply andb_true_iff in H as [-> H]. now apply IH.
Qed.

Lemma ends_nonspace_app (a b : string) :
  ends_nonspace b = true -> ends_nonspace (a ++ b) = true.
Proof.
  intros H. induction a as [|x a IH]; simpl; [exact H|].
  destruct (a ++ b) eqn:E; [|exact IH]. destruct a; destruct b; discriminate.
Qed.

Lemma after_spaces_not_paren (c : ascii) (s : string) :
  not_char "(" c = true -> after_spaces (String c s) = None.
Proof.
  unfold not_char, after_spaces, Re.lit. simpl.
  intros H. apply negb_true_iff in H. now rewrite H.
Qed.

Lemma star_space_no_paren (s : string) :
  all_chars (not_char "(") s = true -> Re.star Py.is_space after_spaces s = None.
Proof.
  induction s as [|c s IH]; simpl; [reflexivity|].
  intros H. apply andb_true_iff in H as [Hc Hs].
  rewrite (IH Hs), (after_spaces_not_paren c s Hc). now destruct (Py.is_space c).
Qed.

Lemma star_space_blocked (b t : string) :
  all_chars (not_char "(") b = true -> ends_nonspace b = true ->
  Re.star Py.is_space after_spaces (b ++ t) = None.
Proof.
  induction b as [|c b IH]; [discriminate|].
  intros Hp He. simpl in Hp. apply andb_true_iff in Hp as [Hc Hb].
  change (String c b ++ t) with (String c (b ++ t)). simpl Re.star.
  rewrite (after_spaces_not_paren c _ Hc).
  destruct (Py.is_space c) eqn:E; [|reflexivity].
  destruct b as [|d b].
  - simpl in He. rewrite E in He. discriminate.
  - now rewrite (IH Hb He).
Qed.

Lemma star_dots_suffix (q : string) :
  all_chars not_newline q = true ->
  Re.star not_newline after_dots (q ++ ")") = Some "".
Proof.
  induction q as [|c q IH]; [reflexivity|].
  intros H. simpl in H. apply andb_true_iff in H as [Hc Hq].
  change (String c q ++ ")") with (String c (q ++ ")")). simpl Re.star.
  now rewrite Hc, (IH Hq).
Qed.

Lemma match_qualifier_suffix (q : string) :
  all_chars not_newline q = true ->
  Re.match_at QUALIFIER_SUFFIX (" (" ++ q ++ ")") = Some "".
Proof. intros H. apply (star_dots_suffix q H). Qed.

Lemma sub_from_skip (r : Re.regex) (repl s : string) (n : nat) :
  String.length s <= n -> Re.sub_from r repl n s = "".
Proof.
  revert n. induction s as [|c s IH]; simpl; intros n H; [reflexivity|].
  destruct n as [|n]; [lia|]. apply IH. lia.
Qed.

Lemma match_suffix_at (c : ascii) (s : string) :
  Re.match_at QUALIFIER_SUFFIX (String c s) =
  if Py.is_space c then Re.star Py.is_space after_spaces s else None.
Proof. reflexivity. Qed.

(** The suffix pattern does not occur in a text without "(". *)
Lemma sub_suffix_no_paren (s : string) :
  all_chars (not_char "(") s = true -> Re.sub QUALIFIER_SUFFIX "" s = s.
Proof.
  unfold Re.sub. induction s as [|c s IH]; [reflexivity|].
  intros H. simpl in H. apply andb_true_iff in H as [Hc Hs].
  cbn [Re.sub_from]. rewrite match_suffix_at, (star_space_no_paren s Hs).
  rewrite (IH Hs). now destruct (Py.is_space c).
Qed.

(** After a base without "(" that ends in a character other than
    whitespace, the pattern matches the appended suffix and nothing more. *)
Lemma sub_suffix_strips (b q : string) :
  all_chars (not_char "(") b = true -> ends_nonspace b = true ->
  all_chars not_newline q = true ->
  Re.sub QUALIFIER_SUFFIX "" (b ++ " (" ++ q ++ ")") = b.
Proof.
  intros Hp He Hq. unfold Re.sub.
  induction b as [|c b IH]; [discriminate|].
  simpl in Hp. apply andb_true_iff in Hp as [Hc Hb].
  change (String c b ++ " (" ++ q ++ ")") with (String c (b ++ " (" ++ q ++ ")")).
  cbn [Re.sub_from]. rewrite match_suffix_at.
  destruct b as [|d b].
  - simpl in He. apply negb_true_iff in He. rewrite He.
    change ("" ++ " (" ++ q ++ ")") with (" (" ++ q ++ ")").
    f_equal. cbn [Re.sub_from append]. fold (" (" ++ q ++ ")").
    rewrite (match_qualifier_suffix q Hq).
    apply (sub_from_skip QUALIFIER_SUFFIX "").
    exact (le_n _).
  - rewrite (star_space_blocked (String d b) _ Hb He), (IH Hb He).
    now destruct (Py.is_space c).
Qed.

Lemma join_no_newline (qs : list string) :
  Forall (fun q => Py.contains LF q = false) qs ->
  all_chars not_newline (Py.join ";" qs) = true.
Proof.
  induction 1 as [|q qs Hq _ IH]; [reflexivity|].
  apply contains_char_false, not_newline_not_char in Hq.
  unfold Py.join in *. destruct qs as [|q' qs]; [exact Hq|].
  change (String.concat ";" (q :: q' :: qs))
    with (q ++ ";" ++ String.concat ";" (q' :: qs)).
  rewrite !all_chars_app, Hq, IH. reflexivity.
Qed.

Lemma derive_qualifiers_no_newline (r : row) (action_key op_name : string) :
  all_chars not_newline (derive_qualifiers r action_key op_name) = true.
Proof.
  unfold derive_qualifiers. rewrite qualifier_list_parts.
  unfold billing_qualifier.
  destruct (data_flag r); destruct (_ && _); destruct (Py.contains "all disks" _);
    destruct (String.eqb action_key "stopped"); try reflexivity;
    destruct (any_in STOP_FREED_SUBSTRINGS _); try reflexivity;
    destruct (any_in STOP_CONTINUE_SUBSTRINGS _); reflexivity.
Qed.

(** The qualifier suffix of a common name does not reach the key. *)
Lemma aggregation_key_suffix (obj_label action_label q : string) :
  Py.contains "(" obj_label = false ->
  Py.contains "(" action_label = false ->
  ends_nonspace action_label = true ->
  all_chars not_newline q = true ->
  aggregation_key (build_common_name obj_label action_label q)
  = aggregation_key (build_common_name obj_label action_label "").
Proof.
  intros Ho Ha He Hq.
  apply contains_char_false in Ho, Ha.
  assert (Hb : all_chars (not_char "(") (obj_label ++ " " ++ action_label) = true).
  { now rewrite !all_chars_app, Ho, Ha. }
  assert (Hn : ends_nonspace (obj_label ++ " " ++ action_label) = true).
  { now rewrite <- app_assoc_string; apply ends_nonspace_app. }
  unfold build_common_name, aggregation_key. cbn [nonempty].
  rewrite app_empty_r, (sub_suffix_no_paren _ Hb).
  destruct q as [|c q]; cbn [nonempty].
  - now rewrite app_empty_r, (sub_suffix_no_paren _ Hb).
  - now rewrite (sub_suffix_strips _ (String c q) Hb Hn Hq).
Qed.

(** X17: for an object label and an action label without "(", the action
    label not empty and not ending in whitespace, the aggregation key of the
    common name is the same for every qualifier list without line feeds,
    hence for every qualifier string [derive_qualifiers] returns, as for the
    empty list; for "Virtual Machine", "Stopped" it is
    VIRTUAL_MACHINE_STOPPED with the qualifier Billing Freed and with none. *)
Theorem aggregation_key_ignores_qualifiers :
  (forall (obj_label action_label : string) (qs : list string),
      Py.contains "(" obj_label = false ->
      Py.contains "(" action_label = false ->
      ends_nonspace action_label = true ->
      Forall (fun q => Py.contains LF q = false) qs ->
      aggregation_key (build_common_name obj_label action_label (Py.join ";" qs))
      = aggregation_key (build_common_name obj_label action_label (Py.join ";" [])))
  /\ (forall (obj_label action_label : string) (r : row) (action_key op_name : string),
      Py.contains "(" obj_label = false ->
      Py.contains "(" action_label = false ->
      ends_nonspace action_label = true ->
      aggregation_key
        (build_common_name obj_label action_label
           (derive_qualifiers r action_key op_name))
      = aggregation_key (build_common_name obj_label action_label ""))
  /\ aggregation_key
       (build_common_name "Virtual Machine" "Stopped" (Py.join ";" ["Billing Freed"]))
     = "VIRTUAL_MACHINE_STOPPED"
  /\ aggregation_key (build_common_name "Virtual Machine" "Stopped" (Py.join ";" []))
     = "VIRTUAL_MACHINE_STOPPED".
Proof.
  split; [|split; [|split; reflexivity]].
  - intros obj act qs Ho Ha He Hq.
    apply aggregation_key_suffix; auto using join_no_newline.
  - intros obj act r k op Ho Ha He.
    apply aggregation_key_suffix; auto using derive_qualifiers_no_newline.
Qed.

Lemma aggregation_key_ignores_qualifiers_witness :
  aggregation_key
    (build_common_name "Storage Bucket" "Created" (Py.join ";" ["Data"; "Admin"]))
  = aggregation_key (build_common_name "Storage Bucket" "Created" (Py.join ";" [])).
Proof.
  apply (proj1 aggregation_key_ignores_qualifiers "Storage Bucket" "Created"
           ["Data"; "Admin"]); try reflexivity.
  repeat constructor.
Defined.

(** Where the key does depend on the qualifiers: the blank action label of
    a row whose operation name is blank leaves the base ending in a space,
    which the suffix pattern takes with the qualifiers; the same happens for
    any action label that ends in a space; and a qualifier with a line feed
    in it (none is ever derived) is not matched by the pattern at all. *)
Lemma aggregation_key_blank_action_label :
  aggregation_key (build_common_name "Bus" "" (Py.join ";" ["Data"])) = "BUS"
  /\ aggregation_key (build_common_name "Bus" "" (Py.join ";" [])) = "BUS_"
  /\ aggregation_key (build_common_name "Bus" "Stopped " (Py.join ";" ["Data"]))
     <> aggregation_key (build_common_name "Bus" "Stopped " (Py.join ";" []))
  /\ aggregation_key
       (build_common_name "Bus" "Stopped" (Py.join ";" ["a" ++ LF ++ "b"]))
     <> aggregation_key (build_common_name "Bus" "Stopped" (Py.join ";" [])).
Proof.
  split; [reflexivity|split; [reflexivity|split; discriminate]].
Qed.

(** ** Row pipeline *)

Lemma dict_get_row_at (df : DataFrame) (i : nat) (name : string) :
  dict_get (row_at df i) name
  = option_map (fun cells => nth i cells "nan") (dict_get (columns df) name).
Proof.
  unfold row_at. induction (columns df) as [|[c cells] d IH]; simpl; [reflexivity|].
  now destruct (String.eqb c name).
Qed.

Lemma nth_repeat_lt {A : Type} (x d : A) (n i : nat) :
  i < n -> nth i (repeat x n) d = x.
Proof.
  revert i. induction n as [|n IH]; intros i H; [lia|].
  destruct i as [|i]; simpl; [reflexivity|]. apply IH. lia.
Qed.

Lemma dict_get_in_keys {V : Type} (d : dict V) (k : string) :
  In k (map fst d) -> exists v, dict_get d k = Some v.
Proof.
  induction d as [|[k0 v0] d IH]; simpl; [intros []|].
  intros H. destruct (String.eqb_spec k0 k) as [|N]; [eauto|].
  destruct H as [H|H]; [contradiction|auto].
Qed.

(** Every row of the table has every column of the table. *)
Lemma getitem_row_at (df : DataFrame) (i : nat) (c : string) :
  In c (column_names df) -> exists v, getitem (row_at df i) c = Ok v.
Proof.
  intros H. destruct (dict_get_in_keys _ _ H) as [cells E].
  unfold getitem. rewrite dict_get_row_at, E. simpl. eauto.
Qed.

(** The loop over the rows goes through when the two columns it reads are
    columns of every row, and adds one entry per row. *)
Lemma classify_rows_ok (op_col rt_col : string) (lookup : object_lookup)
  (variants : action_variants) (rows : list row) (acc : derived) :
  (forall r, In r rows ->
     (exists v, getitem r op_col = Ok v) /\ (exists v, getitem r rt_col = Ok v)) ->
  exists d, classify_rows op_col rt_col lookup variants rows acc = Ok d.
Proof.
  revert acc. induction rows as [|r rows IH]; intros acc H; simpl; [eauto|].
  destruct (H r (or_introl eq_refl)) as [[op ->] [rt ->]]. cbn [bind].
  destruct (classify_action_ok op variants) as (k & l & ->). cbn [bind].
  apply IH. intros r' Hr'. apply H. now right.
Qed.

(** What the pipeline returns carries the capitalized provider. *)
Lemma normalize_file_provider
  (df : DataFrame) (provider : string) (lookup : object_lookup)
  (variants : action_variants) (out : DataFrame) :
  normalize_file df provider lookup variants = Ok out ->
  nrows out = nrows df
  /\ dict_get (columns out) "Provider"
     = Some (repeat (Py.capitalize provider) (nrows df))
  /\ forall r, In r (iterrows out) ->
       dict_get r "Provider" = Some (Py.capitalize provider).
Proof.
  unfold normalize_file.
  destruct (map_columns _) as [mapping|]; [|discriminate]. cbn [bind].
  destruct (getitem mapping "operation") as [op_col|]; [|discriminate]. cbn [bind].
  destruct (getitem mapping "resource_type") as [rt_col|]; [|discriminate]. cbn [bind].
  destruct (classify_rows _ _ _ _ _ _) as [d|]; [|discriminate]. cbn [bind].
  intros [= <-].
  assert (Hc : forall n, dict_get
             (columns (set_column
               (set_column (set_column (set_column (set_column (set_column df
                  "CommonActivityName" (common_names d))
                  "CanonicalAction" (canon_actions d))
                  "ObjectType" (object_types d))
                  "Qualifiers" (qualifiers d))
                  "AggregationKey" (agg_keys d))
               "Provider" (repeat (Py.capitalize provider) n))) "Provider"
             = Some (repeat (Py.capitalize provider) n)).
  { intros n. cbn [set_column columns]. now rewrite dict_get_set. }
  split; [reflexivity|]. split; [apply Hc|].
  intros r Hr. unfold iterrows in Hr. apply in_map_iff in Hr as (i & <- & Hi).
  apply in_seq in Hi. rewrite dict_get_row_at, Hc. cbn [option_map nrows set_column] in *.
  f_equal. apply nth_repeat_lt. lia.
Qed.

(** The pipeline returns a table whenever a column matches an operation
    hint. *)
Lemma normalize_file_ok
  (df : DataFrame) (provider : string) (lookup : object_lookup)
  (variants : action_variants) :
  (exists c, In c (column_names df) /\ In (Py.lower c) (hints_of "operation")) ->
  exists out, normalize_file df provider lookup variants = Ok out.
Proof.
  intros (c & Hc & Hl). unfold normalize_file.
  destruct (map_columns_cases (column_names df))
    as [[Hno _]|(m & o & t & -> & Ho & Ht & Io & _ & It & _)];
    [destruct (Hno c Hc Hl)|].
  cbn [bind]. unfold getitem at 1. rewrite Ho. cbn [bind].
  unfold getitem at 1. rewrite Ht. cbn [bind].
  destruct (classify_rows_ok o t lookup variants (iterrows df)
              {| common_names := []; canon_actions := []; object_types := [];
                 qualifiers := []; agg_keys := [] |}) as [d ->].
  - intros r Hr. unfold iterrows in Hr. apply in_map_iff in Hr as (i & <- & _).
    split; now apply getitem_row_at.
  - cbn [bind]. eauto.
Qed.

(** C3 (as amended): for a table with an operation column the Row Pipeline
    returns a table of as many rows, and attaches the capitalized provider
    string (first character upper-cased, the others lower-cased) to every
    output row; without an operation column it raises and there is no
    output. *)
Theorem provider_tag_capitalized
  (df : DataFrame) (provider : string) (lookup : object_lookup)
  (variants : action_variants) :
  ((forall c, In c (column_names df) -> ~ In (Py.lower c) (hints_of "operation")) ->
   normalize_file df provider lookup variants = Raise NO_OPERATION)
  /\ ((exists c, In c (column_names df) /\ In (Py.lower c) (hints_of "operation")) ->
      exists out,
        normalize_file df provider lookup variants = Ok out
        /\ nrows out = nrows df
        /\ dict_get (columns out) "Provider"
           = Some (repeat (Py.capitalize provider) (nrows df))
        /\ forall r, In r (iterrows out) ->
             dict_get r "Provider" = Some (Py.capitalize provider)).
Proof.
  split.
  - intros H. unfold normalize_file.
    destruct (map_columns_cases (column_names df))
      as [[_ ->]|(m & o & t & _ & _ & _ & Io & Lo & _)]; [reflexivity|].
    destruct (H o Io Lo).
  - intros H. destruct (normalize_file_ok df provider lookup variants H) as [out E].
    exists out. split; [exact E|]. now apply normalize_file_provider in E.
Qed.

Lemma provider_tag_capitalized_witness :
  exists out,
    normalize_file sample_table "AWS" [] stop_index = Ok out
    /\ nrows out = 2
    /\ dict_get (columns out) "Provider" = Some ["Aws"; "Aws"]
    /\ forall r, In r (iterrows out) -> dict_get r "Provider" = Some "Aws".
Proof.
  apply (proj2 (provider_tag_capitalized sample_table "AWS" [] stop_index)).
  exists "Operation". split; [now left|]. cbv. tauto.
Defined.

(** The provider tags [main] passes are lower-case words, so none of them
    reaches the output unchanged. *)
Lemma discover_provider_capitalized (file_name : string) :
  Py.capitalize (discover_provider file_name) <> discover_provider file_name.
Proof. unfold discover_provider. repeat case_if; discriminate. Qed.

(** C3, the claim as written fails: the provider tag is capitalized, not
    attached verbatim. *)
Lemma provider_tag_not_verbatim :
  exists out,
    normalize_file sample_table "aws" [] stop_index = Ok out
    /\ dict_get (columns out) "Provider" = Some ["Aws"; "Aws"]
    /\ dict_get (columns out) "Provider" <> Some ["aws"; "aws"].
Proof. eexists. split; [reflexivity|split; [reflexivity|discriminate]]. Qed.

(** C2: the aggregation key is meant not to depend on the qualifiers, and
    [aggregation_key] strips the qualifier suffix for that; but for two rows
    with a blank operation name, hence the same base "Resource " (blank
    action label), the row with the Data qualifier gets the key RESOURCE and
    the row without gets RESOURCE_: the whitespace of the suffix pattern also
    takes the space that ends the base. *)
Theorem aggregation_key_depends_on_data_flag :
  exists out,
    normalize_file blank_table "aws" [] [] = Ok out
    /\ dict_get (columns out) "CanonicalAction" = Some [""; ""]
    /\ dict_get (columns out) "ObjectType" = Some ["Resource"; "Resource"]
    /\ dict_get (columns out) "Qualifiers" = Some ["Data"; ""]
    /\ dict_get (columns out) "CommonActivityName"
       = Some ["Resource  (Data)"; "Resource "]
    /\ dict_get (columns out) "AggregationKey" = Some ["RESOURCE"; "RESOURCE_"]
    /\ aggregation_key (build_common_name "Resource" "" "Data")
       <> aggregation_key (build_common_name "Resource" "" "").
Proof.
  eexists. split; [reflexivity|].
  repeat (split; [reflexivity|]). discriminate.
Qed.

(** ** The normal form of [norm] *)

Lemma star_space_lstrip (s : string) :
  Re.star Py.is_space (fun t => Some t) s = Some (Py.lstrip s).
Proof.
  induction s as [|c s IH]; simpl; [reflexivity|].
  destruct (Py.is_space c); [now rewrite IH|reflexivity].
Qed.

Lemma length_lstrip (s : string) : String.length (Py.lstrip s) <= String.length s.
Proof.
  induction s as [|c s IH]; simpl; [lia|].
  destruct (Py.is_space c); simpl; lia.
Qed.

Lemma sub_from_past_spaces (r : Re.regex) (repl s : string) :
  Re.sub_from r repl (String.length s - String.length (Py.lstrip s)) s
  = Re.sub_from r repl 0 (Py.lstrip s).
Proof.
  induction s as [|c s IH]; [reflexivity|].
  cbn [Py.lstrip]. destruct (Py.is_space c).
  - pose proof (length_lstrip s) as L. cbn [String.length].
    replace (S (String.length s) - String.length (Py.lstrip s))
      with (S (String.length s - String.length (Py.lstrip s))) by lia.
    cbn [Re.sub_from]. exact IH.
  - now rewrite Nat.sub_diag.
Qed.

(** One step of the collapse: a run of whitespace becomes one space. *)
Lemma collapse_cons (c : ascii) (s : string) :
  collapse (String c s) =
  if Py.is_space c then String " " (collapse (Py.lstrip s))
  else String c (collapse s).
Proof.
  unfold collapse, Re.sub. cbn [Re.sub_from Re.match_at].
  destruct (Py.is_space c); [|reflexivity].
  rewrite star_space_lstrip. cbn [append]. f_equal. apply sub_from_past_spaces.
Qed.

Lemma lstrip_nonspace_head (s : string) :
  ends_nonspace s = true -> nonspace_head (Py.lstrip s) = true.
Proof.
  induction s as [|c s IH]; [discriminate|].
  intros H. cbn [Py.lstrip]. destruct (Py.is_space c) eqn:E.
  - apply IH. destruct s; [simpl in H; now rewrite E in H|exact H].
  - simpl. now rewrite E.
Qed.

Lemma lstrip_ends_nonspace (s : string) :
  ends_nonspace s = true -> ends_nonspace (Py.lstrip s) = true.
Proof.
  induction s as [|c s IH]; [discriminate|].
  intros H. cbn [Py.lstrip]. destruct (Py.is_space c) eqn:E; [|exact H].
  apply IH. destruct s; [simpl in H; now rewrite E in H|exact H].
Qed.

Lemma collapse_nonspace_head (s : string) :
  nonspace_head s = true -> nonspace_head (collapse s) = true.
Proof.
  destruct s as [|c s]; [discriminate|]. simpl. intros H.
  rewrite collapse_cons. apply negb_true_iff in H. rewrite H. simpl. now rewrite H.
Qed.

Lemma collapse_single_spaced (s : string) :
  ends_clean s = true -> single_spaced (collapse s) = true.
Proof.
  remember (String.length s) as n eqn:Hn. revert s Hn.
  induction n as [n IH] using lt_wf_ind. intros s Hn He.
  destruct s as [|c s]; [reflexivity|].
  rewrite collapse_cons. simpl in Hn.
  assert (Hs : ends_clean s = true).
  { destruct s; [reflexivity|exact He]. }
  destruct (Py.is_space c) eqn:E.
  - assert (Hns : ends_nonspace s = true).
    { destruct s; [simpl in He; now rewrite E in He|exact He]. }
    cbn [single_spaced]. change (Py.is_space " ") with true. cbn [negb orb].
    rewrite Ascii.eqb_refl, (collapse_nonspace_head _ (lstrip_nonspace_head s Hns)).
    apply (IH (String.length (Py.lstrip s))); trivial.
    + pose proof (length_lstrip s). lia.
    + pose proof (lstrip_ends_nonspace s Hns) as H.
      now destruct (Py.lstrip s).
  - cbn [single_spaced]. rewrite E. cbn [negb orb andb].
    apply (IH (String.length s)); trivial. lia.
Qed.

Lemma collapse_all_chars (P : ascii -> bool) (s : string) :
  P " "%char = true -> all_chars P s = true -> all_chars P (collapse s) = true.
Proof.
  intros Hsp. unfold collapse, Re.sub. generalize 0 as skip.
  induction s as [|c s IH]; intros skip H; [reflexivity|].
  simpl in H. apply andb_true_iff in H as [Hc Hs].
  cbn [Re.sub_from]. destruct skip as [|k]; [|now apply IH].
  destruct (Re.match_at _ _); cbn [append all_chars].
  - rewrite Hsp. now apply IH.
  - rewrite Hc. now apply IH.
Qed.

Lemma rstrip_ends_clean (s : string) : ends_clean (Py.rstrip s) = true.
Proof.
  induction s as [|c s IH]; [reflexivity|].
  cbn [Py.rstrip]. destruct (Py.rstrip s) as [|d r] eqn:E.
  - destruct (Py.is_space c) eqn:Ec; [reflexivity|]. simpl. now rewrite Ec.
  - exact IH.
Qed.

Lemma map_chars_ends_clean (f : ascii -> ascii) (s : string) :
  (forall c, Py.is_space (f c) = Py.is_space c) ->
  ends_clean s = true -> ends_clean (Py.map_chars f s) = true.
Proof.
  intros Hf. destruct s as [|c s]; [reflexivity|].
  unfold ends_clean. cbn [Py.map_chars]. revert c.
  induction s as [|d s IH]; intros c H.
  - simpl in *. now rewrite Hf.
  - cbn [Py.map_chars]. change (ends_nonspace (Py.map_chars f (String d s)) = true).
    apply IH. exact H.
Qed.

Lemma not_upper_lower_char (c : ascii) : not_upper (Py.lower_char c) = true.
Proof. destruct c as [[] [] [] [] [] [] [] []]; reflexivity. Qed.

Lemma lower_no_upper (s : string) : all_chars not_upper (Py.lower s) = true.
Proof.
  induction s as [|c s IH]; [reflexivity|].
  cbn [Py.lower Py.map_chars all_chars]. rewrite not_upper_lower_char. exact IH.
Qed.

Lemma norm_normalized (s : string) : normalized (norm s) = true.
Proof.
  unfold normalized. rewrite norm_starts_clean. cbn [andb].
  apply andb_true_iff. split.
  - apply collapse_single_spaced, map_chars_ends_clean, rstrip_ends_clean.
    apply is_space_lower_char.
  - apply collapse_all_chars; [reflexivity|apply lower_no_upper].
Qed.

Lemma single_spaced_rstrip (s : string) :
  single_spaced s = true -> Py.rstrip s = s.
Proof.
  induction s as [|c s IH]; [reflexivity|].
  cbn [single_spaced]. intros H. apply andb_true_iff in H as [Hc Hs].
  cbn [Py.rstrip]. rewrite (IH Hs). destruct s as [|d s]; [|reflexivity].
  simpl in Hc. rewrite andb_false_r, orb_false_r in Hc.
  apply negb_true_iff in Hc. now rewrite Hc.
Qed.

Lemma lower_char_not_upper (c : ascii) : not_upper c = true -> Py.lower_char c = c.
Proof.
  unfold not_upper, Py.lower_char. intros H. apply negb_true_iff in H. now rewrite H.
Qed.

Lemma no_upper_lower (s : string) : all_chars not_upper s = true -> Py.lower s = s.
Proof.
  induction s as [|c s IH]; [reflexivity|].
  cbn [all_chars]. intros H. apply andb_true_iff in H as [Hc Hs].
  cbn [Py.lower Py.map_chars]. rewrite (lower_char_not_upper c Hc).
  f_equal. exact (IH Hs).
Qed.

Lemma single_spaced_collapse (s : string) :
  single_spaced s = true -> collapse s = s.
Proof.
  induction s as [|c s IH]; [reflexivity|].
  cbn [single_spaced]. intros H. apply andb_true_iff in H as [Hc Hs].
  rewrite collapse_cons. destruct (Py.is_space c) eqn:E.
  - cbn [negb orb] in Hc. apply andb_true_iff in Hc as [Hc Hh].
    apply Ascii.eqb_eq in Hc. subst c. f_equal.
    rewrite lstrip_clean; [now apply IH|].
    destruct s; [discriminate|exact Hh].
  - f_equal. now apply IH.
Qed.

Lemma normalized_norm (s : string) : normalized s = true -> norm s = s.
Proof.
  unfold normalized. intros H.
  apply andb_true_iff in H as [H Hu]. apply andb_true_iff in H as [Hc Hs].
  unfold norm, Py.strip. fold (collapse (Py.lower (Py.rstrip (Py.lstrip s)))).
  rewrite (lstrip_clean s Hc), (single_spaced_rstrip s Hs), (no_upper_lower s Hu).
  now apply single_spaced_collapse.
Qed.

(** X1: [norm] returns a text in normal form (no upper-case letter, no
    leading or trailing whitespace, single spaces as the only whitespace),
    and the texts in normal form are exactly those it leaves unchanged. *)
Theorem norm_normal_form (s : string) :
  normalized (norm s) = true /\ (norm s = s <-> normalized s = true).
Proof.
  split; [apply norm_normalized|]. split.
  - intros E. rewrite <- E. apply norm_normalized.
  - apply normalized_norm.
Qed.

Lemma norm_norm (s : string) : norm (norm s) = norm s.
Proof. apply normalized_norm, norm_normalized. Qed.

(** ** Letter case *)

Lemma is_space_upper_char (c : ascii) : Py.is_space (Py.upper_char c) = Py.is_space c.
Proof. destruct c as [[] [] [] [] [] [] [] []]; reflexivity. Qed.

Lemma lower_upper_char (c : ascii) : Py.lower_char (Py.upper_char c) = Py.lower_char c.
Proof. destruct c as [[] [] [] [] [] [] [] []]; reflexivity. Qed.

Lemma lower_lower_char (c : ascii) : Py.lower_char (Py.lower_char c) = Py.lower_char c.
Proof. destruct c as [[] [] [] [] [] [] [] []]; reflexivity. Qed.

Lemma map_chars_compose (f g h : ascii -> ascii) (s : string) :
  (forall c, f (g c) = h c) -> Py.map_chars f (Py.map_chars g s) = Py.map_chars h s.
Proof.
  intros H. induction s as [|c s IH]; simpl; [reflexivity|]. now rewrite H, IH.
Qed.

Lemma map_chars_app (f : ascii -> ascii) (a b : string) :
  Py.map_chars f (a ++ b) = Py.map_chars f a ++ Py.map_chars f b.
Proof. induction a as [|c a IH]; simpl; [reflexivity|]. now rewrite IH. Qed.

Section SpacePreserving.
Variable f : ascii -> ascii.
Hypothesis f_space : forall c, Py.is_space (f c) = Py.is_space c.

Lemma lstrip_map_chars (s : string) :
  Py.lstrip (Py.map_chars f s) = Py.map_chars f (Py.lstrip s).
Proof.
  induction s as [|c s IH]; simpl; [reflexivity|].
  rewrite f_space. now destruct (Py.is_space c).
Qed.

Lemma rstrip_map_chars (s : string) :
  Py.rstrip (Py.map_chars f s) = Py.map_chars f (Py.rstrip s).
Proof.
  induction s as [|c s IH]; simpl; [reflexivity|].
  rewrite IH, f_space. destruct (Py.rstrip s); simpl; [|reflexivity].
  now destruct (Py.is_space c).
Qed.

Lemma strip_map_chars (s : string) :
  Py.strip (Py.map_chars f s) = Py.map_chars f (Py.strip s).
Proof. unfold Py.strip. now rewrite lstrip_map_chars, rstrip_map_chars. Qed.
End SpacePreserving.

Lemma norm_upper (s : string) : norm (Py.upper s) = norm s.
Proof.
  unfold norm, Py.upper, Py.lower.
  rewrite (strip_map_chars _ is_space_upper_char).
  now rewrite (map_chars_compose _ _ _ _ lower_upper_char).
Qed.

Lemma norm_lower (s : string) : norm (Py.lower s) = norm s.
Proof.
  unfold norm, Py.lower.
  rewrite (strip_map_chars _ is_space_lower_char).
  now rewrite (map_chars_compose _ _ _ _ lower_lower_char).
Qed.

(** X2: normalizing twice is normalizing once; and on ASCII text the letter
    case does not matter. *)
Theorem norm_idempotent (s : string) :
  norm (norm s) = norm s
  /\ (is_ascii s = true ->
      norm (Py.upper s) = norm s /\ norm (Py.lower s) = norm s).
Proof.
  split; [apply norm_norm|]. intros _. split; [apply norm_upper|apply norm_lower].
Qed.

Lemma norm_idempotent_witness :
  norm (Py.upper "  Stop   Instance ") = norm "  Stop   Instance "
  /\ norm (Py.lower "  Stop   Instance ") = norm "  Stop   Instance ".
Proof. apply (proj2 (norm_idempotent "  Stop   Instance ")). reflexivity. Defined.

(** X3: the Action Classifier and the Qualifier Deriver see the operation
    name only through its normal form: normalizing the name beforehand
    changes neither result, and for an ASCII name neither does upper-casing
    or lower-casing it. *)
Theorem operation_name_case_insensitive
  (r : row) (action_key op_name : string) (variants : action_variants) :
  (classify_action (norm op_name) variants = classify_action op_name variants
   /\ derive_qualifiers r action_key (norm op_name)
      = derive_qualifiers r action_key op_name)
  /\ (is_ascii op_name = true ->
      classify_action (Py.upper op_name) variants = classify_action op_name variants
      /\ classify_action (Py.lower op_name) variants = classify_action op_name variants
      /\ derive_qualifiers r action_key (Py.upper op_name)
         = derive_qualifiers r action_key op_name
      /\ derive_qualifiers r action_key (Py.lower op_name)
         = derive_qualifiers r action_key op_name).
Proof.
  unfold classify_action, derive_qualifiers, qualifier_list, derive_stop_qualifier.
  rewrite norm_norm. split; [split; reflexivity|].
  intros _. now rewrite norm_upper, norm_lower.
Qed.

Lemma operation_name_case_insensitive_witness :
  classify_action (Py.upper "Stop Instance") stop_index
  = classify_action "Stop Instance" stop_index
  /\ classify_action (Py.lower "Stop Instance") stop_index
     = classify_action "Stop Instance" stop_index
  /\ derive_qualifiers [] "stopped" (Py.upper "Stop Instance")
     = derive_qualifiers [] "stopped" "Stop Instance"
  /\ derive_qualifiers [] "stopped" (Py.lower "Stop Instance")
     = derive_qualifiers [] "stopped" "Stop Instance".
Proof.
  apply (proj2 (operation_name_case_insensitive [] "stopped" "Stop Instance"
                  stop_index)).
  reflexivity.
Defined.

(** ** Taxonomy indexes *)

Lemma fold_left_ext {A B : Type} (f g : A -> B -> A) (l : list B) (a : A) :
  (forall a x, f a x = g a x) -> fold_left f l a = fold_left g l a.
Proof.
  intros H. revert a. induction l as [|x l IH]; intros a; simpl; [reflexivity|].
  now rewrite H, IH.
Qed.

Lemma fold_left_flat_map {A B C : Type} (f : A -> C -> A) (g : B -> list C)
  (l : list B) (a : A) :
  fold_left f (flat_map g l) a = fold_left (fun a x => fold_left f (g x) a) l a.
Proof.
  revert a. induction l as [|x l IH]; intros a; simpl; [reflexivity|].
  now rewrite fold_left_app, IH.
Qed.

Lemma fold_left_map {A B C : Type} (f : A -> C -> A) (g : B -> C) (l : list B) (a : A) :
  fold_left f (map g l) a = fold_left (fun a x => f a (g x)) l a.
Proof.
  revert a. induction l as [|x l IH]; intros a; simpl; [reflexivity|]. apply IH.
Qed.

Lemma fold_left_snoc {A B : Type} (g : B -> A) (l : list B) (acc : list A) :
  fold_left (fun acc x => (acc ++ [g x])%list) l acc = (acc ++ map g l)%list.
Proof.
  revert acc. induction l as [|x l IH]; intros acc; simpl.
  - now rewrite app_nil_r.
  - now rewrite IH, <- app_assoc.
Qed.

Lemma fold_left_append {A B : Type} (g : B -> list A) (l : list B) (acc : list A) :
  fold_left (fun acc x => (acc ++ g x)%list) l acc = (acc ++ flat_map g l)%list.
Proof.
  revert acc. induction l as [|x l IH]; intros acc; simpl.
  - now rewrite app_nil_r.
  - now rewrite IH, <- app_assoc.
Qed.

(** The action index is the sorted list of the taxonomy's variants. *)
Lemma build_action_variants_sort (actions_yaml : dict action_entry) :
  build_action_variants actions_yaml
  = sort_longest_first (taxonomy_variants actions_yaml).
Proof.
  unfold build_action_variants, taxonomy_variants. f_equal.
  rewrite <- (app_nil_l (flat_map _ actions_yaml)), <- fold_left_append.
  apply fold_left_ext. intros acc [key data]. apply fold_left_snoc.
Qed.

Lemma insert_variant_perm (v : variant) (l : action_variants) :
  Permutation (v :: l) (insert_variant v l).
Proof.
  induction l as [|w l IH]; simpl; [apply Permutation_refl|].
  destruct (Nat.ltb _ _); [|apply Permutation_refl].
  rewrite perm_swap. now apply perm_skip.
Qed.

Lemma sort_longest_first_perm (l : action_variants) :
  Permutation l (sort_longest_first l).
Proof.
  induction l as [|v l IH]; simpl; [apply perm_nil|].
  rewrite <- insert_variant_perm. now apply perm_skip.
Qed.

Lemma filter_insert_variant (n : nat) (v : variant) (l : action_variants) :
  filter (phrase_length_is n) (insert_variant v l)
  = filter (phrase_length_is n) (v :: l).
Proof.
  induction l as [|w l IH]; [reflexivity|].
  cbn [insert_variant]. destruct (Nat.ltb _ _) eqn:E; [|reflexivity].
  apply Nat.ltb_lt in E. cbn [filter]. rewrite IH. cbn [filter].
  destruct (phrase_length_is n w) eqn:Hw; destruct (phrase_length_is n v) eqn:Hv;
    try reflexivity.
  unfold phrase_length_is in Hw, Hv. apply Nat.eqb_eq in Hw, Hv. lia.
Qed.

Lemma filter_sort_longest_first (n : nat) (l : action_variants) :
  filter (phrase_length_is n) (sort_longest_first l) = filter (phrase_length_is n) l.
Proof.
  induction l as [|v l IH]; [reflexivity|].
  cbn [sort_longest_first fold_right]. rewrite filter_insert_variant.
  cbn [filter]. fold (sort_longest_first l). now rewrite IH.
Qed.

(** X4: the action index holds exactly the variants of the taxonomy, each
    normalized and with the key and label of its entry, as often as the
    taxonomy lists it; it is sorted by phrase length, longest first; and the
    variants whose phrases have the same length stay in the order of the
    taxonomy. *)
Theorem action_index_contents (actions_yaml : dict action_entry) :
  Permutation (taxonomy_variants actions_yaml) (build_action_variants actions_yaml)
  /\ longest_first (build_action_variants actions_yaml)
  /\ forall n,
       filter (phrase_length_is n) (build_action_variants actions_yaml)
       = filter (phrase_length_is n) (taxonomy_variants actions_yaml).
Proof.
  rewrite build_action_variants_sort. split; [apply sort_longest_first_perm|].
  split; [apply sort_longest_first_sorted|]. intros n. apply filter_sort_longest_first.
Qed.

(** *** The object index *)

Lemma build_object_lookup_from (objects_yaml : dict object_entry) :
  build_object_lookup objects_yaml = dict_from [] (taxonomy_aliases objects_yaml).
Proof.
  unfold build_object_lookup, dict_from, taxonomy_aliases.
  rewrite fold_left_flat_map. apply fold_left_ext. intros acc [id data].
  rewrite fold_left_flat_map. apply fold_left_ext. intros acc' [provider aliases].
  now rewrite fold_left_map.
Qed.

Lemma dict_get_app {V : Type} (d d' : dict V) (k : string) :
  dict_get (d ++ d')%list k
  = match dict_get d k with Some v => Some v | None => dict_get d' k end.
Proof.
  induction d as [|[k0 v0] d IH]; simpl; [reflexivity|].
  now destruct (String.eqb k0 k).
Qed.

(** The last assignment to a key is the one that counts. *)
Lemma dict_get_from {V : Type} (pairs : list (string * V)) (acc : dict V) (k : string) :
  dict_get (dict_from acc pairs) k
  = match dict_get (rev pairs) k with Some v => Some v | None => dict_get acc k end.
Proof.
  unfold dict_from. revert acc.
  induction pairs as [|[k0 v0] pairs IH]; intros acc; [reflexivity|].
  cbn [fold_left rev]. rewrite IH, dict_get_app, dict_get_set.
  destruct (dict_get (rev pairs) k); [reflexivity|].
  simpl. now destruct (String.eqb k0 k).
Qed.

Lemma dict_get_in {V : Type} (d : dict V) (k : string) (v : V) :
  dict_get d k = Some v -> In (k, v) d.
Proof.
  induction d as [|[k0 v0] d IH]; simpl; [discriminate|].
  destruct (String.eqb_spec k0 k) as [->|]; [intros [= ->]; now left|].
  intros H. right. now apply IH.
Qed.

Lemma dict_get_none {V : Type} (d : dict V) (k : string) :
  dict_get d k = None -> ~ In k (map fst d).
Proof.
  induction d as [|[k0 v0] d IH]; simpl; [tauto|].
  destruct (String.eqb_spec k0 k) as [->|N]; [discriminate|].
  intros H [E|Hin]; [contradiction|]. now apply IH.
Qed.

Lemma in_dict_get {V : Type} (d : dict V) (k : string) (v : V) :
  NoDup (map fst d) -> In (k, v) d -> dict_get d k = Some v.
Proof.
  induction d as [|[k0 v0] d IH]; simpl; [intros _ []|].
  intros N H. inversion N as [|? ? Hn N']; subst.
  destruct H as [[= -> ->]|H]; [now rewrite String.eqb_refl|].
  destruct (String.eqb_spec k0 k) as [->|]; [|now apply IH].
  destruct Hn. change k with (fst (k, v)). now apply in_map.
Qed.

Lemma keys_dict_set {V : Type} (d : dict V) (k : string) (v : V) :
  map fst (dict_set d k v)
  = if dict_mem d k then map fst d else (map fst d ++ [k])%list.
Proof.
  unfold dict_mem. induction d as [|[k0 v0] d IH]; simpl; [reflexivity|].
  destruct (String.eqb_spec k0 k) as [->|]; simpl; [reflexivity|].
  rewrite IH. now destruct (dict_get d k).
Qed.

Lemma dict_set_nodup {V : Type} (d : dict V) (k : string) (v : V) :
  NoDup (map fst d) -> NoDup (map fst (dict_set d k v)).
Proof.
  intros N. rewrite keys_dict_set. unfold dict_mem.
  destruct (dict_get d k) eqn:E; [exact N|].
  apply NoDup_app; [exact N|repeat constructor; simpl; tauto|].
  intros x Hx [H|[]]. subst x. exact (dict_get_none d k E Hx).
Qed.

Lemma dict_from_nodup {V : Type} (pairs : list (string * V)) (acc : dict V) :
  NoDup (map fst acc) -> NoDup (map fst (dict_from acc pairs)).
Proof.
  unfold dict_from. revert acc.
  induction pairs as [|[k v] pairs IH]; intros acc N; [exact N|].
  apply IH. now apply dict_set_nodup.
Qed.

(** X5: the object index has one entry per normalized alias of the taxonomy;
    the label of an alias is the canonical label of the last taxonomy entry
    that lists it (the last write wins). *)
Theorem object_index_last_write (objects_yaml : dict object_entry) :
  let lookup := build_object_lookup objects_yaml in
  NoDup (map fst lookup)
  /\ (forall alias, dict_get lookup alias
                    = dict_get (rev (taxonomy_aliases objects_yaml)) alias)
  /\ (forall alias label, In (alias, label) lookup <->
                          dict_get (rev (taxonomy_aliases objects_yaml)) alias = Some label)
  /\ (forall alias label, In (alias, label) (taxonomy_aliases objects_yaml) ->
                          exists label', In (alias, label') lookup).
Proof.
  intros lookup. unfold lookup. rewrite build_object_lookup_from.
  assert (N : NoDup (map fst (dict_from [] (taxonomy_aliases objects_yaml)))).
  { apply dict_from_nodup. constructor. }
  assert (G : forall alias,
             dict_get (dict_from [] (taxonomy_aliases objects_yaml)) alias
             = dict_get (rev (taxonomy_aliases objects_yaml)) alias).
  { intros alias. rewrite dict_get_from. now destruct (dict_get (rev _) alias). }
  split; [exact N|]. split; [exact G|]. split.
  - intros alias label. rewrite <- G. split; [now apply in_dict_get|apply dict_get_in].
  - intros alias label H.
    destruct (dict_get (rev (taxonomy_aliases objects_yaml)) alias) as [l|] eqn:E.
    + exists l. apply dict_get_in. now rewrite G.
    + apply dict_get_none in E. destruct E.
      rewrite map_rev, <- in_rev. change alias with (fst (alias, label)).
      now apply in_map.
Qed.

(** ** Outcomes of the Object Classifier *)

Lemma contains_empty (s : string) : Py.contains "" s = true.
Proof. destruct s; reflexivity. Qed.

Lemma first_alias_some (lookup : object_lookup) (combo : string) :
  (exists alias label, In (alias, label) lookup /\ Py.contains alias combo = true) ->
  exists alias label,
    first_alias lookup combo = Some label
    /\ In (alias, label) lookup /\ Py.contains alias combo = true.
Proof.
  induction lookup as [|[a l] lookup IH]; intros (a' & l' & Hin & Hc); [destruct Hin|].
  simpl. destruct (Py.contains a combo) eqn:E.
  - exists a, l. split; [reflexivity|]. split; [now left|exact E].
  - destruct Hin as [Hin|Hin]; [injection Hin as <- <-; congruence|].
    destruct IH as (a2 & l2 & H1 & H2 & H3); [now exists a', l'|].
    exists a2, l2. split; [exact H1|]. split; [now right|exact H3].
Qed.

Lemma first_alias_app (l1 l2 : object_lookup) (combo : string) :
  (forall alias label, In (alias, label) l1 -> Py.contains alias combo = false) ->
  first_alias (l1 ++ l2)%list combo = first_alias l2 combo.
Proof.
  induction l1 as [|[a l] l1 IH]; intros H; [reflexivity|].
  simpl. rewrite (H a l); [|now left].
  apply IH. intros a' l' Hin. apply (H a' l'). now right.
Qed.

Lemma combo_of_upper (resource_type op_name : string) :
  combo_of (Py.upper resource_type) (Py.upper op_name) = combo_of resource_type op_name.
Proof.
  unfold combo_of, Py.lower, Py.upper.
  rewrite !map_chars_app, !(map_chars_compose _ _ _ _ lower_upper_char).
  reflexivity.
Qed.

(** X6: when aliases of the index occur in the lower-cased text
    "resource_type op_name", the Object Classifier returns the label of the
    first of them in the order of the index, and for ASCII texts upper-casing
    the two does not change the result; an empty alias occurs in every text,
    so with one in the index the fallback is never used. *)
Theorem classify_object_first_alias :
  (forall (resource_type op_name : string) (before after : object_lookup)
          (alias label : string),
      (forall a l, In (a, l) before ->
                   Py.contains a (combo_of resource_type op_name) = false) ->
      Py.contains alias (combo_of resource_type op_name) = true ->
      classify_object resource_type op_name (before ++ (alias, label) :: after)%list
      = label)
  /\ (forall (resource_type op_name : string) (lookup : object_lookup),
      is_ascii resource_type = true -> is_ascii op_name = true ->
      (exists a l, In (a, l) lookup
                   /\ Py.contains a (combo_of resource_type op_name) = true) ->
      classify_object (Py.upper resource_type) (Py.upper op_name) lookup
      = classify_object resource_type op_name lookup)
  /\ (forall (resource_type op_name : string) (lookup : object_lookup) (label : string),
      In ("", label) lookup ->
      exists a l, In (a, l) lookup
                  /\ Py.contains a (combo_of resource_type op_name) = true
                  /\ classify_object resource_type op_name lookup = l).
Proof.
  split; [|split].
  - intros rt op before after alias label Hb Hc.
    unfold classify_object. fold (combo_of rt op).
    rewrite (first_alias_app _ _ _ Hb). simpl. now rewrite Hc.
  - intros rt op lookup _ _ H.
    destruct (first_alias_some lookup _ H) as (a & l & E & _).
    unfold classify_object. fold (combo_of (Py.upper rt) (Py.upper op)).
    fold (combo_of rt op). now rewrite combo_of_upper, E.
  - intros rt op lookup label Hin.
    destruct (first_alias_some lookup (combo_of rt op)) as (a & l & E & H1 & H2).
    { exists "", label. split; [exact Hin|apply contains_empty]. }
    exists a, l. repeat split; auto.
    unfold classify_object. fold (combo_of rt op). now rewrite E.
Qed.

Lemma classify_object_first_alias_witness :
  classify_object "Virtual Machines" "Deallocate"
    [("bucket", "Storage Bucket"); ("virtual machine", "Virtual Machine");
     ("machine", "Host")] = "Virtual Machine"
  /\ classify_object (Py.upper "Virtual Machines") (Py.upper "Deallocate")
       [("bucket", "Storage Bucket"); ("virtual machine", "Virtual Machine")]
     = classify_object "Virtual Machines" "Deallocate"
         [("bucket", "Storage Bucket"); ("virtual machine", "Virtual Machine")].
Proof.
  split.
  - apply (proj1 classify_object_first_alias "Virtual Machines" "Deallocate"
             [("bucket", "Storage Bucket")] [("machine", "Host")]
             "virtual machine" "Virtual Machine").
    + intros a l [E|[]]. injection E as <- _. reflexivity.
    + reflexivity.
  - apply (proj1 (proj2 classify_object_first_alias) "Virtual Machines" "Deallocate");
      try reflexivity.
    exists "virtual machine", "Virtual Machine". split; [|reflexivity].
    right. now left.
Defined.

(** ** Outcomes of the Action Classifier *)

Lemma first_variant_some (variants : action_variants) (low key label : string) :
  first_variant variants low = Some (key, label) ->
  exists p, In (p, key, label) variants /\ p <> "" /\ Py.contains p low = true.
Proof.
  induction variants as [|[[p0 k0] l0] variants IH]; simpl; [discriminate|].
  destruct (nonempty p0 && Py.contains p0 low) eqn:E.
  - intros [= <- <-]. apply andb_true_iff in E as [E1 E2].
    exists p0. split; [now left|]. split; [now apply nonempty_true|exact E2].
  - intros H. destruct (IH H) as (p & H1 & H2). exists p. split; [now right|exact H2].
Qed.

Lemma first_variant_filter (variants : action_variants) (low : string) :
  first_variant (filter (fun v => nonempty (phrase_of v)) variants) low
  = first_variant variants low.
Proof.
  induction variants as [|[[p k] l] variants IH]; [reflexivity|].
  cbn [filter phrase_of fst]. destruct (nonempty p) eqn:E; simpl; rewrite E, IH;
    reflexivity.
Qed.

(** Where the result of the Action Classifier comes from. *)
Lemma classify_action_cases (op_name : string) (variants : action_variants)
  (key label : string) :
  classify_action op_name variants = Ok (key, label) ->
  (exists p, In (p, key, label) variants /\ p <> ""
             /\ Py.contains p (norm op_name) = true)
  \/ In (key, label) HEURISTIC_ACTIONS
  \/ (key = "other" /\ label = Py.capitalize (first_token (norm op_name))).
Proof.
  unfold classify_action.
  destruct (first_variant variants (norm op_name)) as [[k l]|] eqn:E.
  - intros [= <- <-]. left. now apply first_variant_some.
  - rewrite split_norm_first_token. cbn [bind].
    repeat (case_if; [intros [= <- <-]; right; left; simpl; tauto|]).
    intros [= <- <-]. right. right. split; reflexivity.
Qed.

(** X7: the pair the Action Classifier returns is the key and label of a
    non-empty variant of the index that occurs in the normalized name, or
    one of the four heuristic pairs, or the key other with the capitalized
    first token; variants with an empty phrase never match, so removing them
    from the index changes nothing. *)
Theorem classify_action_outcomes (op_name : string) (variants : action_variants) :
  (forall key label,
      classify_action op_name variants = Ok (key, label) ->
      (exists p, In (p, key, label) variants /\ p <> ""
                 /\ Py.contains p (norm op_name) = true)
      \/ In (key, label) HEURISTIC_ACTIONS
      \/ (key = "other" /\ label = Py.capitalize (first_token (norm op_name))))
  /\ classify_action op_name (filter (fun v => nonempty (phrase_of v)) variants)
     = classify_action op_name variants.
Proof.
  split; [apply classify_action_cases|].
  unfold classify_action. now rewrite first_variant_filter.
Qed.

Lemma classify_action_outcomes_witness :
  (exists p, In (p, "stopped", "Stopped") stop_index /\ p <> ""
             /\ Py.contains p (norm "Stop Instance i-42") = true)
  \/ In ("stopped", "Stopped") HEURISTIC_ACTIONS
  \/ ("stopped" = "other"
      /\ "Stopped" = Py.capitalize (first_token (norm "Stop Instance i-42"))).
Proof.
  apply (proj1 (classify_action_outcomes "Stop Instance i-42" stop_index)).
  reflexivity.
Defined.

(** X8: the heuristics never produce the key stopped, so when no variant of
    the index has that key no row gets a billing qualifier: its qualifiers are
    among Data, Admin and All Disks. *)
Theorem no_billing_without_stopped_variant
  (r : row) (op_name : string) (variants : action_variants) (key label : string) :
  (forall p k l, In (p, k, l) variants -> k <> "stopped") ->
  classify_action op_name variants = Ok (key, label) ->
  key <> "stopped"
  /\ Forall (fun q => In q [QUAL_DATA; QUAL_ADMIN; QUAL_ALL_DISKS])
            (qualifier_list r key op_name).
Proof.
  intros Hv H.
  assert (Hk : key <> "stopped").
  { apply classify_action_cases in H as [(p & Hin & _)|[Hin|[-> _]]].
    - now apply (Hv p key label).
    - simpl in Hin. intuition congruence.
    - discriminate. }
  split; [exact Hk|]. apply String.eqb_neq in Hk.
  rewrite qualifier_list_parts, Hk, app_nil_r. unfold opt.
  destruct (data_flag r); destruct (_ && _); destruct (Py.contains "all disks" _);
    simpl; repeat first [apply Forall_nil | apply Forall_cons; [cbv; auto 6|]].
Qed.

Lemma no_billing_without_stopped_variant_witness :
  "other" <> "stopped"
  /\ Forall (fun q => In q [QUAL_DATA; QUAL_ADMIN; QUAL_ALL_DISKS])
            (qualifier_list [("IsDataAction", "true")] "other" "Power Off VM").
Proof.
  apply (no_billing_without_stopped_variant [("IsDataAction", "true")]
           "Power Off VM" [("restart", "restarted", "Restarted")] "other" "Power").
  - intros p k l [E|[]]. injection E as _ <- _. discriminate.
  - reflexivity.
Defined.

(** ** The alphabet of the aggregation key *)

Lemma sub_one_all_chars (cls : ascii -> bool) (skip : nat) (s : string) :
  all_chars (fun c => negb (cls c)) (Re.sub_from [Re.One cls] "" skip s) = true.
Proof.
  revert skip. induction s as [|c s IH]; intros skip; [reflexivity|].
  cbn [Re.sub_from Re.match_at]. destruct skip as [|k]; [|apply IH].
  destruct (cls c) eqn:E; cbn [append all_chars]; [apply IH|].
  rewrite E. apply IH.
Qed.

Lemma upper_char_alnum_space (c : ascii) :
  negb (not_alnum_space c) = true -> upper_digit_space (Py.upper_char c) = true.
Proof.
  destruct c as [[] [] [] [] [] [] [] []]; intros H; try reflexivity; discriminate H.
Qed.

Lemma upper_alnum_space (s : string) :
  all_chars (fun c => negb (not_alnum_space c)) s = true ->
  all_chars upper_digit_space (Py.upper s) = true.
Proof.
  induction s as [|c s IH]; [reflexivity|].
  cbn [all_chars Py.upper Py.map_chars]. intros H. apply andb_true_iff in H as [Hc Hs].
  rewrite (upper_char_alnum_space c Hc). now apply IH.
Qed.

Lemma upper_digit_not_space (c : ascii) :
  upper_digit_space c = true -> Ascii.eqb c " " = false -> key_char c = true.
Proof.
  unfold upper_digit_space, key_char. intros H E. rewrite E, orb_false_r in H.
  now rewrite H.
Qed.

Lemma prefix_space (c : ascii) (s : string) :
  prefix " " (String c s) = Ascii.eqb c " ".
Proof.
  change (prefix " " (String c s))
    with (if ascii_dec " " c then prefix "" s else false).
  destruct (ascii_dec " " c) as [<-|N].
  - now destruct s.
  - symmetry. apply Ascii.eqb_neq. congruence.
Qed.

Lemma replace_space_key_chars (skip : nat) (s : string) :
  all_chars upper_digit_space s = true ->
  all_chars key_char (Py.replace_from " " "_" skip s) = true.
Proof.
  revert skip. induction s as [|c s IH]; intros skip H; [reflexivity|].
  cbn [all_chars] in H. apply andb_true_iff in H as [Hc Hs].
  cbn [Py.replace_from]. destruct skip as [|k]; [|now apply IH].
  rewrite prefix_space. destruct (Ascii.eqb c " ") eqn:E.
  - cbn [append all_chars]. change (key_char "_") with true. now apply IH.
  - cbn [all_chars]. rewrite (upper_digit_not_space c Hc E). now apply IH.
Qed.

(** X9: whatever the common name, the aggregation key is made of upper-case
    letters, digits and underscores only. *)
Theorem aggregation_key_alphabet (common_name : string) :
  all_chars key_char (aggregation_key common_name) = true.
Proof.
  unfold aggregation_key, Py.replace.
  apply replace_space_key_chars, upper_alnum_space. apply sub_one_all_chars.
Qed.

(** ** Which columns the data flag reads *)

Lemma qualifier_list_no_data (r : row) (action_key op_name : string) :
  data_flag r = false -> ~ In QUAL_DATA (qualifier_list r action_key op_name).
Proof.
  intros H. rewrite qualifier_list_parts, H. unfold opt, billing_qualifier.
  destruct (_ && _); destruct (Py.contains "all disks" _);
    destruct (String.eqb action_key "stopped");
    try (destruct (any_in STOP_FREED_SUBSTRINGS _));
    try (destruct (any_in STOP_CONTINUE_SUBSTRINGS _));
    simpl; intuition discriminate.
Qed.

(** X10: the Data qualifier is decided by the cell of the column named
    exactly "IsDataAction" or, when the row has no such column, of the column
    named exactly "is_data": rows that agree on these two cells get the same
    qualifiers, a present IsDataAction cell hides the is_data cell, and a row
    with neither column never gets Data, whatever its other columns hold. *)
Theorem data_flag_columns :
  (forall (r r' : row) (action_key op_name : string),
      dict_get r "IsDataAction" = dict_get r' "IsDataAction" ->
      dict_get r "is_data" = dict_get r' "is_data" ->
      derive_qualifiers r action_key op_name = derive_qualifiers r' action_key op_name)
  /\ (forall (r : row) (cell : string),
      dict_get r "IsDataAction" = Some cell ->
      data_flag r = String.eqb (Py.upper cell) "TRUE")
  /\ (forall (r : row) (action_key op_name : string),
      dict_get r "IsDataAction" = None -> dict_get r "is_data" = None ->
      ~ In QUAL_DATA (qualifier_list r action_key op_name)).
Proof.
  split; [|split].
  - intros r r' k op H1 H2. unfold derive_qualifiers.
    rewrite !qualifier_list_parts. unfold data_flag, row_get. now rewrite H1, H2.
  - intros r cell H. unfold data_flag, row_get. now rewrite H.
  - intros r k op H1 H2. apply qualifier_list_no_data.
    unfold data_flag, row_get. now rewrite H1, H2.
Qed.

Lemma data_flag_columns_witness :
  map_columns ["Operation"; "Data Action"]
  = Ok [("operation", "Operation"); ("is_data", "Data Action");
        ("resource_type", "Operation")]
  /\ ~ In QUAL_DATA
       (qualifier_list [("Operation", "Read Blob"); ("Data Action", "TRUE")]
          "retrieved" "Read Blob").
Proof.
  split; [reflexivity|].
  apply (proj2 (proj2 data_flag_columns)); reflexivity.
Defined.

(** ** The qualifier string *)

(** X11: a row gets each qualifier at most once, at most four of them and
    never both billing qualifiers; no qualifier holds a ";", so a non-empty
    qualifier string splits at ";" into the list it was joined from. *)
Theorem qualifier_string_splits (r : row) (action_key op_name : string) :
  let q := qualifier_list r action_key op_name in
  NoDup q /\ List.length q <= 4
  /\ ~ (In QUAL_BILLING_FREED q /\ In QUAL_BILLING_CONTINUES q)
  /\ (q <> [] -> Py.split ";" (derive_qualifiers r action_key op_name) = q)
  /\ (q = [] -> derive_qualifiers r action_key op_name = "").
Proof.
  unfold derive_qualifiers. rewrite qualifier_list_parts.
  unfold opt, billing_qualifier.
  destruct (data_flag r); destruct (_ && _); destruct (Py.contains "all disks" _);
    destruct (String.eqb action_key "stopped");
    try (destruct (any_in STOP_FREED_SUBSTRINGS _));
    try (destruct (any_in STOP_CONTINUE_SUBSTRINGS _));
    cbv zeta; cbn [app];
    (split; [repeat constructor; simpl; intuition discriminate|]);
    (split; [simpl; lia|]);
    (split; [simpl; intuition discriminate|]);
    (split; [intros H; try reflexivity; now destruct H|]);
    intros H; try reflexivity; discriminate H.
Qed.

Lemma qualifier_string_splits_witness :
  Py.split ";"
    (derive_qualifiers [("IsDataAction", "True")] "stopped" "Admin login: poweroff")
  = ["Data"; "Admin"; "Billing Continues"].
Proof.
  apply (qualifier_string_splits [("IsDataAction", "True")] "stopped"
           "Admin login: poweroff").
  discriminate.
Defined.

(** ** The output table *)

(** What a successful run of the pipeline went through. *)
Lemma normalize_file_steps
  (df : DataFrame) (provider : string) (lookup : object_lookup)
  (variants : action_variants) (out : DataFrame) :
  normalize_file df provider lookup variants = Ok out ->
  exists op_col rt_col d,
    In op_col (column_names df) /\ In (Py.lower op_col) (hints_of "operation")
    /\ In rt_col (column_names df)
    /\ ((forall c, In c (column_names df) ->
           ~ In (Py.lower c) (hints_of "resource_type")) -> rt_col = op_col)
    /\ classify_rows op_col rt_col lookup variants (iterrows df) no_rows = Ok d
    /\ out = with_derived df d provider.
Proof.
  unfold normalize_file.
  destruct (map_columns_cases (column_names df))
    as [[_ ->]|(m & o & t & -> & Ho & Ht & Io & Lo & It & Hd)]; [discriminate|].
  cbn [bind]. unfold getitem at 1. rewrite Ho. cbn [bind].
  unfold getitem at 1. rewrite Ht. cbn [bind]. fold no_rows.
  destruct (classify_rows _ _ _ _ _ _) as [d|] eqn:E; [|discriminate]. cbn [bind].
  intros [= <-]. exists o, t, d. repeat split; auto.
Qed.




Lemma dict_get_with_derived (df : DataFrame) (d : derived) (provider name : string) :
  dict_get (columns (with_derived df d provider)) name =
  if String.eqb "Provider" name
  then Some (repeat (Py.capitalize provider) (nrows df))
  else if String.eqb "AggregationKey" name then Some (agg_keys d)
  else if String.eqb "Qualifiers" name then Some (qualifiers d)
  else if String.eqb "ObjectType" name then Some (object_types d)
  else if String.eqb "CanonicalAction" name then Some (canon_actions d)
  else if String.eqb "CommonActivityName" name then Some (common_names d)
  else dict_get (columns df) name.
Proof. unfold with_derived. cbn [set_column columns]. now rewrite !dict_get_set. Qed.

Lemma keys_dict_set_incl {V : Type} (d : dict V) (k : string) (v : V) :
  exists extra, map fst (dict_set d k v) = (map fst d ++ extra)%list
                /\ forall c, In c extra -> c = k.
Proof.
  rewrite keys_dict_set. destruct (dict_mem d k).
  - exists []. rewrite app_nil_r. split; [reflexivity|intros c []].
  - exists [k]. split; [reflexivity|]. intros c [<-|[]]. reflexivity.
Qed.

(** X12: the table the pipeline returns has the rows of the input; every
    input column that is not named like one of the six derived columns is
    unchanged, the input columns keep their places, and the only columns
    added, after them, are derived columns. *)
Theorem normalize_file_keeps_columns
  (df : DataFrame) (provider : string) (lookup : object_lookup)
  (variants : action_variants) (out : DataFrame) :
  normalize_file df provider lookup variants = Ok out ->
  nrows out = nrows df
  /\ (forall c, ~ In c DERIVED_COLUMNS ->
                dict_get (columns out) c = dict_get (columns df) c)
  /\ (exists added, column_names out = (column_names df ++ added)%list
                    /\ forall c, In c added -> In c DERIVED_COLUMNS)
  /\ (forall c, In c DERIVED_COLUMNS -> In c (column_names out)).
Proof.
  intros H. apply normalize_file_steps in H as (o & t & d & _ & _ & _ & _ & _ & ->).
  split; [reflexivity|]. split; [|split].
  - intros c Hc. rewrite dict_get_with_derived.
    repeat match goal with
           | |- context [String.eqb ?k c] =>
               destruct (String.eqb_spec k c) as [<-|_];
               [destruct Hc; simpl; auto 10|]
           end.
    reflexivity.
  - unfold with_derived, column_names. cbn [set_column columns].
    repeat match goal with
           | |- context [map fst (dict_set ?d0 ?k ?v)] =>
               let extra := fresh "extra" in
               let E := fresh "E" in
               let K := fresh "K" in
               destruct (keys_dict_set_incl d0 k v) as (extra & E & K);
               rewrite E; clear E
           end.
    rewrite <- !app_assoc. eexists. split; [reflexivity|].
    intros c Hc. repeat (apply in_app_or in Hc as [Hc|Hc]);
      match goal with K : forall c, In c ?e -> c = _, Hc : In c ?e |- _ =>
        rewrite (K c Hc); simpl; tauto end.
  - intros c Hc. unfold column_names.
    destruct (dict_get (columns (with_derived df d provider)) c) eqn:E.
    + apply dict_get_in in E. change c with (fst (c, l)). now apply in_map.
    + rewrite dict_get_with_derived in E.
      simpl in Hc. repeat (destruct Hc as [<-|Hc]; [discriminate E|]). destruct Hc.
Qed.

Lemma normalize_file_keeps_columns_witness :
  exists out,
    normalize_file sample_table "aws" [] stop_index = Ok out
    /\ nrows out = 2
    /\ dict_get (columns out) "Resource Type" = Some ["Disks"; "Bus"].
Proof.
  eexists. split; [reflexivity|].
  destruct (normalize_file_keeps_columns sample_table "aws" [] stop_index _ eq_refl)
    as (H1 & H2 & _).
  split; [exact H1|]. rewrite H2; [reflexivity|].
  simpl. intuition discriminate.
Defined.





(** ** The column mapping, role by role *)

(** What [map_columns] maps each role to, in terms of the hint search. *)
Lemma map_columns_get (cols : list string) (m : dict string) :
  map_columns cols = Ok m ->
  let found role := first_hint (lower_map_from [] cols) (hints_of role) in
  dict_get m "operation" = found "operation"
  /\ dict_get m "resource_type"
     = match found "resource_type" with Some c => Some c | None => found "operation" end
  /\ dict_get m "service" = found "service"
  /\ dict_get m "description" = found "description"
  /\ dict_get m "is_data" = found "is_data"
  /\ dict_get m "origin" = found "origin"
  /\ forall role, ~ In role ROLES -> dict_get m role = None.
Proof.
  unfold map_columns, COL_HINTS, ROLES.
  cbn -[first_hint lower_map_from].
  destruct (first_hint _ ["operation name"; _; _; _; _]) as [o|];
    destruct (first_hint _ ["resource type"; _; _; _]) as [t|];
    destruct (first_hint _ ["service"; _; _]);
    destruct (first_hint _ ["description"; _; _]);
    destruct (first_hint _ ["isdataaction"; _; _; _; _]);
    destruct (first_hint _ ["origin"; _]);
    cbn; intros H; try discriminate H; injection H as <-;
    repeat (split; [reflexivity|]);
    intros role Hr; cbn [dict_get];
    repeat match goal with
           | |- context [String.eqb ?k role] =>
               destruct (String.eqb_spec k role) as [<-|_];
               [destruct Hr; simpl; auto 10|]
           end;
    reflexivity.
Qed.

(** X14: in the mapping [map_columns] returns every key is a canonical
    role and every value is a column of the table; the column of a role,
    lower-cased, is one of the hints of that role, except that resource_type
    may be the operation column. *)
Theorem map_columns_values (cols : list string) (m : dict string) :
  map_columns cols = Ok m ->
  forall role c, dict_get m role = Some c ->
    In role ROLES /\ In c cols
    /\ (In (Py.lower c) (hints_of role)
        \/ (role = "resource_type" /\ dict_get m "operation" = Some c)).
Proof.
  intros H role c Hc.
  destruct (map_columns_get cols m H) as (Eo & Et & Es & Ed & Ei & Eg & Hnone).
  cbv zeta in *.
  destruct (in_dec string_dec role ROLES) as [Hr|Hr];
    [|rewrite (Hnone role Hr) in Hc; discriminate].
  split; [exact Hr|].
  assert (F : forall hints, first_hint (lower_map_from [] cols) hints = Some c ->
                            In c cols /\ In (Py.lower c) hints).
  { intros hints. apply first_hint_some. }
  simpl in Hr.
  destruct Hr as [<-|[<-|[<-|[<-|[<-|[<-|[]]]]]]].
  - rewrite Eo in Hc. destruct (F _ Hc). auto.
  - rewrite Et in Hc.
    destruct (first_hint _ (hints_of "resource_type")) as [t|] eqn:E.
    + injection Hc as ->. destruct (F _ E). auto.
    + destruct (F _ Hc). split; [assumption|]. right. split; [reflexivity|].
      now rewrite Eo.
  - rewrite Es in Hc. destruct (F _ Hc). auto.
  - rewrite Ed in Hc. destruct (F _ Hc). auto.
  - rewrite Ei in Hc. destruct (F _ Hc). auto.
  - rewrite Eg in Hc. destruct (F _ Hc). auto.
Qed.

Lemma map_columns_values_witness :
  In "resource_type" ROLES /\ In "Event" ["id"; "Event"]
  /\ (In (Py.lower "Event") (hints_of "resource_type")
      \/ ("resource_type" = "resource_type"
          /\ dict_get [("operation", "Event"); ("resource_type", "Event")] "operation"
             = Some "Event")).
Proof.
  apply (map_columns_values ["id"; "Event"]
           [("operation", "Event"); ("resource_type", "Event")]); reflexivity.
Defined.

Lemma lower_map_from_skip (cols : list string) (acc : dict string) (h : string) :
  (forall c, In c cols -> Py.lower c <> h) ->
  dict_get (lower_map_from acc cols) h = dict_get acc h.
Proof.
  revert acc. induction cols as [|x cols IH]; intros acc H; [reflexivity|].
  cbn [lower_map_from fold_left]. fold (lower_map_from (dict_set acc (Py.lower x) x) cols).
  rewrite IH; [|intros c Hc; apply H; now right].
  rewrite dict_get_set.
  destruct (String.eqb_spec (Py.lower x) h) as [E|]; [|reflexivity].
  destruct (H x (or_introl eq_refl) E).
Qed.

(** Among the columns with the same lower-cased name the last one is kept. *)
Lemma lower_map_from_last (before after : list string) (c : string) :
  (forall c', In c' after -> Py.lower c' <> Py.lower c) ->
  dict_get (lower_map_from [] (before ++ c :: after)%list) (Py.lower c) = Some c.
Proof.
  intros H. unfold lower_map_from. rewrite fold_left_app. cbn [fold_left].
  fold (lower_map_from [] before).
  fold (lower_map_from (dict_set (lower_map_from [] before) (Py.lower c) c) after).
  rewrite (lower_map_from_skip _ _ _ H), dict_get_set. now rewrite String.eqb_refl.
Qed.

Lemma first_hint_app (lower_map : dict string) (hs1 hs2 : list string) :
  (forall h, In h hs1 -> dict_get lower_map h = None) ->
  first_hint lower_map (hs1 ++ hs2)%list = first_hint lower_map hs2.
Proof.
  induction hs1 as [|h hs1 IH]; intros H; [reflexivity|].
  cbn [app first_hint]. rewrite (H h (or_introl eq_refl)).
  apply IH. intros h' Hh'. apply H. now right.
Qed.

Lemma lower_map_absent (cols : list string) (h : string) :
  (forall c, In c cols -> Py.lower c <> h) ->
  dict_get (lower_map_from [] cols) h = None.
Proof. intros H. now rewrite lower_map_from_skip. Qed.

(** X15: the order of the hints of a role decides, not the order of the
    columns: the role is mapped to the column matching the earliest hint that
    any column matches and, among the columns with that lower-cased name, to
    the last one. *)
Theorem map_columns_hint_priority
  (cols : list string) (m : dict string) (role : string)
  (earlier later : list string) (before after : list string) (c : string) :
  map_columns cols = Ok m ->
  hints_of role = (earlier ++ Py.lower c :: later)%list ->
  (forall c' h, In c' cols -> In h earlier -> Py.lower c' <> h) ->
  cols = (before ++ c :: after)%list ->
  (forall c', In c' after -> Py.lower c' <> Py.lower c) ->
  dict_get m role = Some c.
Proof.
  intros H Hh He -> Ha.
  assert (F : first_hint (lower_map_from [] (before ++ c :: after)) (hints_of role)
              = Some c).
  { rewrite Hh, first_hint_app.
    - cbn [first_hint]. now rewrite (lower_map_from_last before after c Ha).
    - intros h Hin. apply lower_map_absent. intros c' Hc'. now apply He. }
  destruct (map_columns_get _ m H) as (Eo & Et & Es & Ed & Ei & Eg & Hnone).
  cbv zeta in *.
  destruct (in_dec string_dec role ROLES) as [Hr|Hr].
  - simpl in Hr.
    destruct Hr as [<-|[<-|[<-|[<-|[<-|[<-|[]]]]]]]; try congruence.
    now rewrite Et, F.
  - exfalso. assert (E : hints_of role = []).
    { unfold hints_of. generalize (Hnone role Hr). intros _.
      unfold ROLES in Hr. destruct (dict_get COL_HINTS role) eqn:D; [|reflexivity].
      apply dict_get_in in D. destruct Hr.
      change role with (fst (role, l)). now apply in_map. }
    rewrite E in Hh. now destruct earlier.
Qed.

Lemma map_columns_hint_priority_witness :
  dict_get [("operation", "OPERATION NAME"); ("resource_type", "OPERATION NAME")]
    "operation" = Some "OPERATION NAME".
Proof.
  apply (map_columns_hint_priority
           ["Event"; "Operation Name"; "OPERATION NAME"; "Action"]
           [("operation", "OPERATION NAME"); ("resource_type", "OPERATION NAME")]
           "operation" [] ["operation"; "action performed"; "event"; "action"]
           ["Event"; "Operation Name"] ["Action"] "OPERATION NAME").
  - reflexivity.
  - reflexivity.
  - intros c' h _ [].
  - reflexivity.
  - intros c' [<-|[]]. discriminate.
Defined.

(** ** Provider discovery *)

Lemma lower_lower (s : string) : Py.lower (Py.lower s) = Py.lower s.
Proof. apply map_chars_compose, lower_lower_char. Qed.

Lemma lower_upper (s : string) : Py.lower (Py.upper s) = Py.lower s.
Proof. apply map_chars_compose, lower_upper_char. Qed.

Lemma prefix_cons (a b : ascii) (p s : string) :
  prefix (String a p) (String b s) = Ascii.eqb a b && prefix p s.
Proof.
  change (prefix (String a p) (String b s))
    with (if ascii_dec a b then prefix p s else false).
  destruct (ascii_dec a b) as [->|N].
  - now rewrite Ascii.eqb_refl.
  - apply Ascii.eqb_neq in N. now rewrite N.
Qed.

Lemma prefix_second_char (a x y : ascii) (p q s : string) :
  x <> y ->
  prefix (String a (String x p)) s = true ->
  prefix (String a (String y q)) s = false.
Proof.
  intros N H. destruct s as [|c1 s]; [discriminate H|].
  rewrite prefix_cons in H. apply andb_true_iff in H as [_ H].
  destruct s as [|c2 s]; [discriminate H|].
  rewrite prefix_cons in H. apply andb_true_iff in H as [H _].
  rewrite !prefix_cons.
  apply Ascii.eqb_eq in H. subst c2.
  apply Ascii.eqb_neq in N. rewrite Ascii.eqb_sym in N.
  rewrite N. now rewrite andb_false_r.
Qed.

(** X16: [discover_provider] returns one of four tags; it returns azure,
    aws or gcp exactly when the lower-cased file name starts with that word
    (the three prefixes exclude one another, so the order of the tests does
    not matter); and for an ASCII file name the letter case does not
    matter. *)
Theorem discover_provider_tags (file_name : string) :
  In (discover_provider file_name) PROVIDERS
  /\ (forall tag, In tag ["azure"; "aws"; "gcp"] ->
        (discover_provider file_name = tag
         <-> Py.startswith (Py.lower file_name) tag = true))
  /\ (is_ascii file_name = true ->
      discover_provider (Py.upper file_name) = discover_provider file_name
      /\ discover_provider (Py.lower file_name) = discover_provider file_name).
Proof.
  split; [|split].
  - unfold discover_provider, PROVIDERS. repeat case_if; simpl; auto 6.
  - unfold discover_provider, Py.startswith. intros tag Htag.
    destruct (prefix "azure" (Py.lower file_name)) eqn:Ea.
    + assert (Ew := prefix_second_char "a" "z" "w" "ure" "s" _
                      ltac:(discriminate) Ea).
      destruct Htag as [<-|[<-|[<-|[]]]].
      * tauto.
      * rewrite Ew. split; discriminate.
      * destruct (Py.lower file_name) as [|c s]; [discriminate|].
        rewrite !prefix_cons in *.
        destruct (Ascii.eqb_spec "a" c) as [<-|]; [|discriminate].
        split; discriminate.
    + destruct (prefix "aws" (Py.lower file_name)) eqn:Ew.
      * destruct Htag as [<-|[<-|[<-|[]]]].
        -- rewrite Ea. split; discriminate.
        -- tauto.
        -- destruct (Py.lower file_name) as [|c s]; [discriminate|].
           rewrite !prefix_cons in *.
           destruct (Ascii.eqb_spec "a" c) as [<-|]; [|discriminate].
           split; discriminate.
      * destruct (prefix "gcp" (Py.lower file_name)) eqn:Eg;
          destruct Htag as [<-|[<-|[<-|[]]]];
          rewrite ?Ea, ?Ew, ?Eg; split; intros; congruence.
  - intros _. unfold discover_provider. now rewrite lower_upper, lower_lower.
Qed.

Lemma discover_provider_tags_witness :
  (discover_provider "AWS_cloudtrail.csv" = "aws"
   <-> Py.startswith (Py.lower "AWS_cloudtrail.csv") "aws" = true)
  /\ discover_provider (Py.upper "AWS_cloudtrail.csv")
     = discover_provider "AWS_cloudtrail.csv".
Proof.
  split.
  - apply (proj1 (proj2 (discover_provider_tags "AWS_cloudtrail.csv"))).
    right. now left.
  - apply (proj2 (proj2 (discover_provider_tags "AWS_cloudtrail.csv"))).
    reflexivity.
Defined.
